(** * Row-selector normalization of [datatable.dt.DataTable]

    A shallow embedding of [DataTable._rows_selector] and of the entry point
    [DataTable.__call__] (src/datatable/dt.py), with the properties of the
    selector normalizer stated and proved over it.

    Python objects are values of [pyval]; exceptions are values of [exn]
    carried by [result]; the mutable objects the normalizer can reach (the
    table it is called on, the class-level id counter, generator objects) live
    in an explicit [state] that every call threads through. *)

From Stdlib Require Import ZArith Lia.
From stdpp Require Import base list strings gmap.

Set Warnings "-register-all".
Local Open Scope Z_scope.

(** ** Python values *)

(** Handle of an object owned by the [_datatable] C engine. *)
Definition c_DataTable := nat.

(** The attributes [DataTable.__init__] creates. *)
Record DataTable := mkDataTable {
  _id : Z;
  _ncols : Z;
  _nrows : Z;
  _types : list string;
  _names : list string;
  _inames : list (string * Z);
  _dt : c_DataTable
}.

(** A lazy expression over a table.  [expr_node = 0] is the bare proxy that
    [DataTableExpr(src=self)] builds; other nodes stand for expressions the
    external expression language derives from it. *)
Record DataTableExpr := mkExpr {
  expr_src : DataTable;
  expr_node : nat
}.

(** The values a [rows] argument, or an element of it, can be.  A [range]
    always holds three integers (Python's constructor enforces it), the
    attributes of a [slice] are arbitrary objects.  [PyOther eq0 descr] is any
    object that is neither [None] nor an [int] nor one of the other shapes (a
    float, a dict, a callable that is no function such as a built-in, a
    partial object or an instance with [__call__], ...): [eq0] is what
    [obj == 0] answers.  [PyFunction] is an instance of [types.FunctionType],
    a [def] or a [lambda].  A generator is a
    reference into the store of generator objects; a set is given by its
    iteration order.  [bool], a subclass of [int], is identified with its
    integer value. *)
Inductive pyval :=
| Ellipsis
| PyNone
| PyInt (n : Z)
| PyStr (s : string)
| PyOther (eq0 : bool) (descr : string)
| PySlice (start stop step : pyval)
| PyRange (start stop step : Z)
| PyList (items : list pyval)
| PyTuple (items : list pyval)
| PySet (items : list pyval)
| PyGenerator (g : nat)
| PyDataTable (t : DataTable)
| PyFunction (f : DataTableExpr -> pyval)
| PyExpr (e : DataTableExpr).

(** ** Exceptions *)

(** An error message is kept as the pieces of its format string: literal
    text, [str(v)] ([{v}] in an f-string), [repr(v)] ([%r]) and
    [plural(n, noun)] of [datatable.utils.misc]. *)
Inductive fragment :=
| Txt (s : string)
| Str (v : pyval)
| Repr (v : pyval)
| Plural (n : Z) (noun : string).

Definition message := list fragment.

(** [ValueError] and [TypeError] are the classes of
    [datatable.utils.typechecks]; [AssertionError] and [IndexError] are
    Python's own.  [RecursionError] marks a nesting depth the embedding ran
    out of, which no call does (see [rows_selector_terminates]). *)
Inductive exn :=
| ValueError (m : message)
| TypeError (m : message)
| AssertionError
| IndexError
| RecursionError.

Inductive result (A : Type) :=
| Ok (a : A)
| Raise (e : exn).

Arguments Ok {A} a.
Arguments Raise {A} e.

#[global] Instance result_ret : MRet result := fun A a => Ok a.
#[global] Instance result_bind : MBind result := fun A B f r =>
  match r with
  | Ok a => f a
  | Raise e => Raise e
  end.

(** ** What the engine is handed *)

(** The calls [c.rowmapping_from_*] and [select_by_expression] are external;
    each is recorded with its arguments. *)
Inductive RowMapping :=
| rowmapping_from_array (indices : list Z)
| rowmapping_from_slice (start count step : Z)
| rowmapping_from_slicelist (bases counts strides : list Z)
| rowmapping_from_column (column : c_DataTable)
| select_by_expression (e : DataTableExpr).

(** ** The state a call can reach *)

(** [self] is the table the method is called on, [DataTable_id_counter] the
    class attribute [DataTable._id_counter_], [generators] maps a generator
    object to the items it has yet to yield, and [calls] logs every
    invocation of a user function, oldest first. *)
Record state := mkState {
  self : DataTable;
  DataTable_id_counter : Z;
  generators : gmap nat (list pyval);
  calls : list (pyval * DataTableExpr)
}.

(** [list(arg)] for a generator: what it yields. *)
Definition remaining (g : nat) (st : state) : list pyval :=
  default [] (generators st !! g).

(** ... and the exhausted generator it leaves behind. *)
Definition drain (g : nat) (st : state) : state :=
  mkState (self st) (DataTable_id_counter st)
          (<[g := []]> (generators st)) (calls st).

Definition log_call (f : pyval) (x : DataTableExpr) (st : state) : state :=
  mkState (self st) (DataTable_id_counter st) (generators st)
          (calls st ++ [(f, x)]).

(** ** The three accumulators of the element loop *)

Record accumulators := mkAcc {
  bases : list Z;
  counts : list Z;
  strides : list Z
}.

Definition canonical := (Z * Z * Z)%type.

(** [x == 0] *)
Definition is_zero (x : pyval) : bool :=
  match x with
  | PyInt n => n =? 0
  | PyOther eq0 _ => eq0
  | _ => false
  end.

(** [x is None or isinstance(x, int)] *)
Definition none_or_int (x : pyval) : bool :=
  match x with
  | PyNone | PyInt _ => true
  | _ => false
  end.

(** A bound that passed [none_or_int], as the canonicalizer reads it. *)
Definition as_bound (x : pyval) : option Z :=
  match x with
  | PyInt n => Some n
  | _ => None
  end.

(** [l[i]] *)
Definition subscript (l : list Z) (i : nat) : result Z :=
  match l !! i with
  | Some x => Ok x
  | None => Raise IndexError
  end.

(** Lines 331-343: unpack the canonical triple and extend the accumulators. *)
Definition absorb (res : canonical) (a : accumulators) : result accumulators :=
  let '(start, count, step) := res in
  if count <? 0 then Raise AssertionError
  else if count =? 0 then Ok a
  else if count =? 1 then Ok (mkAcc (bases a ++ [start]) (counts a) (strides a))
  else
    let a' :=
      if (length (counts a) <? length (bases a))%nat
      then mkAcc (bases a)
             (counts a ++ replicate (length (bases a) - length (counts a))%nat 1)
             (strides a ++ replicate (length (bases a) - length (strides a))%nat 1)
      else a in
    Ok (mkAcc (bases a' ++ [start]) (counts a' ++ [count]) (strides a' ++ [step])).

(** Lines 351-356: the shape handed to the engine. *)
Definition compact (a : accumulators) : result RowMapping :=
  match counts a with
  | [] => Ok (rowmapping_from_array (bases a))
  | _ :: _ =>
    if (length (bases a) =? 1)%nat
    then b ← subscript (bases a) 0;
         c ← subscript (counts a) 0;
         s ← subscript (strides a) 0;
         Ok (rowmapping_from_slice b c s)
    else Ok (rowmapping_from_slicelist (bases a) (counts a) (strides a))
  end.

(** Lines 358-371: a table used as a boolean mask. *)
Definition mask_selector (this arg : DataTable) : result RowMapping :=
  if negb (_ncols arg =? 1)
  then Raise (ValueError
         [Txt "`rows` argument should be a single-column datatable, got ";
          Str (PyDataTable arg)])
  else
    match _types arg !! 0%nat with
    | None => Raise IndexError
    | Some col0type =>
      if negb (String.eqb col0type "bool")
      then Raise (TypeError
             [Txt "`rows` datatable should be a boolean column, however it has type ";
              Str (PyStr col0type)])
      else if negb (_nrows arg =? _nrows this)
      then Raise (ValueError
             [Txt "`rows` datatable has "; Plural (_nrows arg) "row";
              Txt ", but applied to a datatable with ";
              Plural (_nrows this) "row"])
      else Ok (rowmapping_from_column (_dt arg))
    end.

(** Lines 380-384. *)
Definition unexpected (nested : bool) (arg : pyval) : exn :=
  if nested
  then TypeError [Txt "Unexpected result produced by the `rows` function: ";
                  Repr arg]
  else TypeError [Txt "Unexpected `rows` argument: "; Repr arg].

Section Selector.

(** [normalize_slice] and [normalize_range] of [datatable.utils.misc] are
    called here and defined elsewhere; so are the engine's table call and the
    two attributes [__call__] reads from its result. *)
Context (normalize_slice : option Z -> option Z -> option Z -> Z -> canonical).
Context (normalize_range : Z -> Z -> Z -> Z -> option canonical).
Context (dt_call : c_DataTable -> RowMapping -> c_DataTable).
Context (dt_ncols dt_nrows : c_DataTable -> Z).

(** Lines 309-350: one iteration of [for i, elem in enumerate(arg)]. *)
Definition process (nrows : Z) (from_generator : bool) (i : nat)
    (elem : pyval) (a : accumulators) : result accumulators :=
  match elem with
  | PyInt e =>
    if (e <? - nrows) || (e >=? nrows)
    then Raise (ValueError
           [Txt "datatable contains "; Plural nrows "row"; Txt "; row ";
            Str elem; Txt " is invalid"])
    else
      let e := if e <? 0 then e + nrows else e in
      Ok (mkAcc (bases a ++ [e]) (counts a) (strides a))
  | PySlice start stop step =>
    if is_zero step
    then Raise (ValueError [Txt "In "; Repr elem; Txt " step must not be 0"])
    else if negb (forallb none_or_int [start; stop; step])
    then Raise (ValueError [Str elem; Txt " is not integer-valued"])
    else absorb (normalize_slice (as_bound start) (as_bound stop)
                                 (as_bound step) nrows) a
  | PyRange start stop step =>
    if step =? 0
    then Raise (ValueError [Txt "In "; Repr elem; Txt " step must not be 0"])
    else
      (* the test of lines 320-321 passes: all three are integers *)
      match normalize_range start stop step nrows with
      | None => Raise (ValueError
                  [Txt "Invalid "; Str elem; Txt " for a datatable with ";
                   Plural nrows "row"])
      | Some res => absorb res a
      end
  | _ =>
    if from_generator
    then Raise (TypeError
           [Txt "Invalid row selector "; Str elem;
            Txt " generated at position "; Str (PyInt (Z.of_nat i))])
    else Raise (TypeError
           [Txt "Invalid row selector "; Str elem; Txt " at element ";
            Str (PyInt (Z.of_nat i)); Txt " of the `rows` list"])
  end.

(** The loop from position [i] on; the first exception ends it. *)
Fixpoint loop (nrows : Z) (from_generator : bool) (i : nat)
    (elems : list pyval) (a : accumulators) : result accumulators :=
  match elems with
  | [] => Ok a
  | elem :: rest =>
    a' ← process nrows from_generator i elem a;
    loop nrows from_generator (S i) rest a'
  end.

(** Lines 304-356. *)
Definition collection_selector (nrows : Z) (from_generator : bool)
    (elems : list pyval) : result RowMapping :=
  a ← loop nrows from_generator 0 elems (mkAcc [] [] []);
  compact a.

(** The body of [_rows_selector]; [recur] is the recursive call of line 375. *)
Definition rows_selector_body
    (recur : state -> pyval -> state * result RowMapping)
    (st : state) (arg : pyval) (nested : bool) : state * result RowMapping :=
  let nrows := _nrows (self st) in
  match arg with
  | Ellipsis => (st, Ok (rowmapping_from_slice 0 nrows 1))
  | _ =>
    let arg :=
      match arg with
      | PyInt _ | PySlice _ _ _ | PyRange _ _ _ => PyList [arg]
      | _ => arg
      end in
    let '(st, arg, from_generator) :=
      match arg with
      | PyGenerator g => (drain g st, PyList (remaining g st), true)
      | _ => (st, arg, false)
      end in
    match arg with
    | PyList elems | PyTuple elems | PySet elems =>
      (st, collection_selector nrows from_generator elems)
    | PyDataTable t => (st, mask_selector (self st) t)
    | PyFunction f =>
      if negb nested
      then
        let x := mkExpr (self st) 0 in
        recur (log_call arg x st) (f x)
      else (st, Raise (unexpected nested arg))
    | PyExpr e => (st, Ok (select_by_expression e))
    | _ => (st, Raise (unexpected nested arg))
    end
  end.

(** [_rows_selector] with at most [depth] nested activations. *)
Fixpoint rows_selector_upto (depth : nat) (st : state) (arg : pyval)
    (nested : bool) : state * result RowMapping :=
  match depth with
  | O => (st, Raise RecursionError)
  | S d =>
    rows_selector_body (fun st' ss => rows_selector_upto d st' ss true)
                       st arg nested
  end.

(** [DataTable._rows_selector]: the nested call never recurs, two activations
    are all there can be (see [rows_selector_depth]). *)
Definition _rows_selector : state -> pyval -> bool -> state * result RowMapping :=
  rows_selector_upto 2.

(** [DataTable.__call__]; [rows = None] is the argument left out. *)
Definition __call__ (st : state) (rows : option pyval)
    : state * result DataTable :=
  let rows := default PyNone rows in
  let '(st, r) := _rows_selector st rows false in
  match r with
  | Raise e => (st, Raise e)
  | Ok rows_selector =>
    let id := DataTable_id_counter st + 1 in
    let res_dt := dt_call (_dt (self st)) rows_selector in
    (mkState (self st) id (generators st) (calls st),
     Ok (mkDataTable id (dt_ncols res_dt) (dt_nrows res_dt)
           (_types (self st)) (_names (self st)) (_inames (self st)) res_dt))
  end.

End Selector.

(** ** The canonicalizers, as the specification describes them *)

(** Modelled from the spec: [normalize_slice] of [datatable.utils.misc] is
    not among the sources.  Section 4.1: a slice follows the host language's
    slice-clamping convention: [start] and [stop] may be omitted or negative
    (counted from the end), out-of-bounds values are clamped without error,
    and the count is never negative.  This is Python's [slice.indices]
    followed by the length of the resulting progression. *)
Definition canonicalize_slice (start stop step : option Z) (nrows : Z)
    : canonical :=
  let step := default 1 step in
  let lower := if step <? 0 then -1 else 0 in
  let upper := if step <? 0 then nrows - 1 else nrows in
  let clamp x := if x <? 0 then Z.max (x + nrows) lower else Z.min x upper in
  let start :=
    match start with
    | None => if step <? 0 then upper else lower
    | Some x => clamp x
    end in
  let stop :=
    match stop with
    | None => if step <? 0 then lower else upper
    | Some x => clamp x
    end in
  let count :=
    if step <? 0
    then (if stop <? start then (start - stop - 1) / (- step) + 1 else 0)
    else (if start <? stop then (stop - start - 1) / step + 1 else 0) in
  (start, count, step).

(** [len(range(start, stop, step))] *)
Definition range_length (start stop step : Z) : Z :=
  if 0 <? step
  then (if start <? stop then (stop - start - 1) / step + 1 else 0)
  else if step <? 0
  then (if stop <? start then (start - stop - 1) / (- step) + 1 else 0)
  else 0.

(** [list(range(start, stop, step))] *)
Definition range_expand (start stop step : Z) : list Z :=
  map (fun k => start + Z.of_nat k * step)
      (seq 0 (Z.to_nat (range_length start stop step))).

(** Modelled from the spec: [normalize_range] of [datatable.utils.misc] is
    not among the sources.  Section 4.1: a range behaves as if it were
    materialized into an explicit index list and validated element by
    element; when a produced index falls outside [0, nrows) the whole range
    is invalid (not clamped). *)
Definition canonicalize_range (start stop step nrows : Z) : option canonical :=
  let indices := range_expand start stop step in
  if forallb (fun i => (0 <=? i) && (i <? nrows)) indices
  then Some (hd 0 indices, Z.of_nat (length indices), step)
  else None.

(** An outer call of [_rows_selector] with these canonicalizers. *)
Definition run (st : state) (selector : pyval) : state * result RowMapping :=
  _rows_selector canonicalize_slice canonicalize_range st selector false.

(** The normalizer of Section 4.4: the value an outer call returns or the
    exception it raises. *)
Definition normalize (st : state) (selector : pyval) : result RowMapping :=
  snd (run st selector).

(** ** Reading a selector as a collection *)

(** Lines 294-304: the elements the loop walks and the [from_generator] flag,
    for the selectors that reach the loop. *)
Definition as_collection (st : state) (arg : pyval)
    : option (bool * list pyval) :=
  match arg with
  | PyInt _ | PySlice _ _ _ | PyRange _ _ _ => Some (false, [arg])
  | PyGenerator g => Some (true, remaining g st)
  | PyList elems | PyTuple elems | PySet elems => Some (false, elems)
  | _ => None
  end.

(** The accumulators are index-aligned: the shape [SliceList] needs. *)
Definition aligned (a : accumulators) : Prop :=
  length (counts a) = 0%nat \/ length (counts a) = length (bases a).

(** What the loop does keep: [counts] and [strides] grow together and never
    outgrow [bases]. *)
Definition lagging (a : accumulators) : Prop :=
  length (counts a) = length (strides a) /\
  (length (counts a) <= length (bases a))%nat.

(** [l] filled up to length [n] with the count, or stride, of a scalar. *)
Definition padded (l : list Z) (n : nat) : list Z :=
  l ++ replicate (n - length l)%nat 1.

(** The accumulators read as (start, count, step) triples: a base with no
    count and stride of its own yet is a scalar, of implicit count 1 and
    step 1. *)
Definition triples (a : accumulators) : list canonical :=
  zip (zip (bases a) (padded (counts a) (length (bases a))))
      (padded (strides a) (length (bases a))).

(** ** Sample objects *)

Definition table10 : DataTable :=
  mkDataTable 1 1 10 ["int"] ["C1"] [("C1", 0)] 0%nat.

Definition state10 : state := mkState table10 2 ∅ [].

(** A one-column table of integers with as many rows as [table10]. *)
Definition int_column : DataTable :=
  mkDataTable 2 1 10 ["int"] ["C1"] [("C1", 0)] 1%nat.

(** [state10] with one live generator that is about to yield 0, then 1. *)
Definition state_gen : state :=
  mkState table10 2 {[0%nat := [PyInt 0; PyInt 1]]} [].



(** The exceptions the statements of lines 304-356 raise themselves. *)
Definition raised_by_loop (e : exn) : Prop :=
  match e with
  | ValueError _ | TypeError _ | AssertionError => True
  | IndexError | RecursionError => False
  end.

(** ** The rest of the class *)

From stdpp Require Import pretty.

Local Open Scope Z_scope.

(** *** Reading the element loop *)

(** [isinstance(elem, int)] or [isinstance(elem, (range, slice))]: the
    elements the loop has a branch for. *)
Definition is_row_element (elem : pyval) : bool :=
  match elem with
  | PyInt _ | PySlice _ _ _ | PyRange _ _ _ => true
  | _ => false
  end.

(** [elem.step == 0] for a slice or a range. *)
Definition has_zero_step (elem : pyval) : bool :=
  match elem with
  | PySlice _ _ step => is_zero step
  | PyRange _ _ step => step =? 0
  | _ => false
  end.

(** Lines 314-315: a row counted from the end becomes a row counted from the
    start. *)
Definition row_index (nrows e : Z) : Z :=
  if e <? 0 then e + nrows else e.

(** The triples a canonical triple stands for once the loop has taken it in:
    none when it is empty, a scalar when it is a single row. *)
Definition taken_in (res : canonical) : list canonical :=
  let '(start, count, step) := res in
  if count =? 0 then []
  else if count =? 1 then [(start, 1, 1)]
  else [(start, count, step)].

(** Every count is of at least one row, the last of at least two. *)
Definition counted (cs : list Z) : Prop :=
  Forall (fun c => 1 <= c) cs /\ forall c, last cs = Some c -> 2 <= c.

(** The selectors [_rows_selector] has a branch for whatever [nested] is. *)
Definition recognized (arg : pyval) : bool :=
  match arg with
  | PyNone | PyStr _ | PyOther _ _ | PyFunction _ => false
  | _ => true
  end.

(** *** Dictionaries from names to indices *)

(** [d[k] = v] on a dictionary kept as its items, keys unique, in insertion
    order. *)
Fixpoint dict_set (d : list (string * Z)) (k : string) (v : Z)
    : list (string * Z) :=
  match d with
  | [] => [(k, v)]
  | (k', v') :: rest =>
    if String.eqb k' k then (k', v) :: rest else (k', v') :: dict_set rest k v
  end.

(** [d.get(k)] *)
Fixpoint dict_get (d : list (string * Z)) (k : string) : option Z :=
  match d with
  | [] => None
  | (k', v') :: rest => if String.eqb k' k then Some v' else dict_get rest k
  end.

(** Line 120 from position [i] on: [{n: i for i, n in enumerate(names)}]. *)
Fixpoint inames_from (i : nat) (names : list string) (d : list (string * Z))
    : list (string * Z) :=
  match names with
  | [] => d
  | n :: rest => inames_from (S i) rest (dict_set d n (Z.of_nat i))
  end.

(** Line 115: [tuple("C%d" % (i + 1) for i in range(ncols))]. *)
Definition default_names (ncols : Z) : list string :=
  map (fun i : nat => "C" +:+ pretty (Z.of_nat i + 1))
      (seq 0 (Z.to_nat ncols)).

(** The names of a table are distinct, as many as its columns, and
    [_inames] sends each name to its position and nothing else anywhere. *)
Definition named (t : DataTable) : Prop :=
  NoDup (_names t) /\
  Z.of_nat (length (_names t)) = _ncols t /\
  forall (i : nat) (n : string),
    _names t !! i = Some n <-> dict_get (_inames t) n = Some (Z.of_nat i).

(** [isinstance(src, list)], [isinstance(src, (tuple, set))] *)
Definition is_sequence (v : pyval) : bool :=
  match v with
  | PyList _ | PyTuple _ | PySet _ => true
  | _ => false
  end.

(** [isinstance(x, list)] *)
Definition is_list (v : pyval) : bool :=
  match v with
  | PyList _ => true
  | _ => false
  end.

(** *** Construction *)

(** What [DataTable(src)] is given: a dictionary from column names to
    columns, its items in the order of its keys (the keys are taken to be
    strings, as the annotation of [_names] has them), or any other object
    (here [PyOther] is an object that is no dictionary). *)
Inductive source :=
| SrcObject (v : pyval)
| SrcDict (items : list (string * pyval)).

(** *** Subscription *)

(** [__getitem__] raises what [__call__] raises or, at line 396, the
    [TypeError] of Python's own that the operator [%] raises. *)
Inductive getitem_exn :=
| FromCall (e : exn)
| FormatError (msg : string).

(** [prefix + "%r" + suffix % arg]: a tuple on the right of [%] is the
    argument list, and must hold as many items as there are conversions. *)
Definition percent_r (prefix suffix : string) (arg : pyval)
    : message + string :=
  match arg with
  | PyTuple [] => inr "not enough arguments for format string"
  | PyTuple [x] => inl [Txt prefix; Repr x; Txt suffix]
  | PyTuple _ => inr "not all arguments converted during string formatting"
  | _ => inl [Txt prefix; Repr arg; Txt suffix]
  end.

Section Class.

Context (normalize_slice : option Z -> option Z -> option Z -> Z -> canonical).
Context (normalize_range : Z -> Z -> Z -> Z -> option canonical).
Context (dt_call : c_DataTable -> RowMapping -> c_DataTable).
Context (dt_ncols dt_nrows : c_DataTable -> Z).

(** The engine's constructors [c.datatable_from_list] and [c.DataTable], and
    the attribute [types] of an engine table. *)
Context (datatable_from_list : list pyval -> c_DataTable).
Context (new_c_DataTable : c_DataTable).
Context (dt_types : c_DataTable -> list string).

(** The triples an element yields when the loop accepts it. *)
Definition element_triples (nrows : Z) (elem : pyval) : list canonical :=
  match elem with
  | PyInt e => [(row_index nrows e, 1, 1)]
  | PySlice start stop step =>
    taken_in (normalize_slice (as_bound start) (as_bound stop)
                              (as_bound step) nrows)
  | PyRange start stop step =>
    match normalize_range start stop step nrows with
    | Some res => taken_in res
    | None => []
    end
  | _ => []
  end.

(** [DataTable._fill_from_list] on the table with the given [_id], created
    blank by [__init__]. *)
Definition _fill_from_list (id : Z) (src : list pyval)
    (names : option (list string)) : result DataTable :=
  let dt := datatable_from_list src in
  let ncols := dt_ncols dt in
  let names :=
    match names with
    | Some (n :: rest) => n :: rest
    | _ => default_names ncols
    end in
  if negb (Z.of_nat (length names) =? ncols) then Raise AssertionError
  else Ok (mkDataTable id ncols (dt_nrows dt) (dt_types dt) names
             (inames_from 0 names []) dt).

(** [DataTable._fill_from_source].  In the blank table of the last branch
    the empty lists stand for the [None] that [__init__] left in [_types],
    [_names] and [_inames]. *)
Definition _fill_from_source (id : Z) (src : source) : result DataTable :=
  match src with
  | SrcObject (PyList items) =>
    match items with
    | [] => Raise IndexError
    | PyList _ :: _ => _fill_from_list id items None
    | _ :: _ => _fill_from_list id [PyList items] None
    end
  | SrcObject (PyTuple items) | SrcObject (PySet items) =>
    _fill_from_list id items None
  | SrcDict items =>
    _fill_from_list id (map snd items) (Some (map fst items))
  | SrcObject _ => Ok (mkDataTable id 0 0 [] [] [] new_c_DataTable)
  end.

(** [DataTable.__init__]: the id is taken before the source is looked at. *)
Definition __init__ (st : state) (src : source) : state * result DataTable :=
  let id := DataTable_id_counter st + 1 in
  (mkState (self st) id (generators st) (calls st),
   _fill_from_source id src).

(** [DataTable.__getitem__]; [__call__] reads none of its parameters but
    [rows]. *)
Definition __getitem__ (st : state) (item : pyval)
    : state * (getitem_exn + DataTable) :=
  let call rows :=
    let '(st', r) :=
      __call__ normalize_slice normalize_range dt_call dt_ncols dt_nrows
               st (Some rows) in
    (st', match r with
          | Ok t => inr t
          | Raise e => inl (FromCall e)
          end) in
  match item with
  | PyTuple [_] => call Ellipsis
  | PyTuple [rows; _] => call rows
  | PyTuple [rows; _; _] => call rows
  | PyTuple _ =>
    (st, inl match percent_r "Selector " " is not supported" item with
             | inl m => FromCall (ValueError m)
             | inr msg => FormatError msg
             end)
  | _ => call Ellipsis
  end.

End Class.

(** *** A stand-in engine for the samples *)

(** A table handle is the number of its columns; every table has three rows
    of integers, and a selection keeps the columns. *)
Definition sample_from_list (src : list pyval) : c_DataTable := length src.
Definition sample_ncols (dt : c_DataTable) : Z := Z.of_nat dt.
Definition sample_nrows (dt : c_DataTable) : Z := 3.
Definition sample_types (dt : c_DataTable) : list string :=
  replicate dt "int"%string.
Definition sample_call (dt : c_DataTable) (rows : RowMapping) : c_DataTable :=
  dt.

(** * Properties *)

Section Properties.

Context (normalize_slice : option Z -> option Z -> option Z -> Z -> canonical).
Context (normalize_range : Z -> Z -> Z -> Z -> option canonical).

Local Abbreviation process := (process normalize_slice normalize_range).
Local Abbreviation loop := (loop normalize_slice normalize_range).
Local Abbreviation collection_selector :=
  (collection_selector normalize_slice normalize_range).
Local Abbreviation rows_selector_upto :=
  (rows_selector_upto normalize_slice normalize_range).
Local Abbreviation _rows_selector := (_rows_selector normalize_slice normalize_range).

(** [absorb] keeps [counts] and [strides] in step and no longer than
    [bases]. *)
Lemma absorb_lagging res a a' :
  lagging a -> absorb res a = Ok a' -> lagging a'.
Proof.
  destruct res as [[start count] step]. unfold absorb, lagging.
  intros [Hcs Hcb].
  destruct (count <? 0); [discriminate|].
  destruct (count =? 0); [intros [= <-]; done|].
  destruct (count =? 1).
  { intros [= <-]; simpl. rewrite length_app; simpl. lia. }
  destruct (Nat.ltb_spec (length (counts a)) (length (bases a)));
    intros [= <-]; simpl; rewrite ?length_app, ?length_replicate; simpl; lia.
Qed.

Lemma process_lagging nrows fg i elem a a' :
  lagging a -> process nrows fg i elem a = Ok a' -> lagging a'.
Proof.
  intros Ha. destruct elem; simpl; try (destruct fg; discriminate).
  - destruct (_ || _); [discriminate|]. intros [= <-].
    destruct Ha as [Hcs Hcb]. split; simpl; [done|].
    rewrite length_app; simpl; lia.
  - destruct (is_zero _); [discriminate|].
    destruct (negb _); [discriminate|]. by apply absorb_lagging.
  - destruct (step =? 0); [discriminate|].
    destruct (normalize_range _ _ _ _); [|discriminate].
    by apply absorb_lagging.
Qed.

Lemma loop_lagging nrows fg elems : forall i a a',
  lagging a -> loop nrows fg i elems a = Ok a' -> lagging a'.
Proof.
  induction elems as [|elem rest IH]; intros i a a' Ha; simpl.
  - by intros [= <-].
  - destruct (process nrows fg i elem a) as [a1|e] eqn:E; simpl; [|discriminate].
    apply IH. by eapply process_lagging.
Qed.

Lemma lagging_empty : lagging (mkAcc [] [] []).
Proof. split; simpl; lia. Qed.

Lemma padded_full (l : list Z) n : length l = n -> padded l n = l.
Proof.
  intros <-. unfold padded. rewrite Nat.sub_diag. apply app_nil_r.
Qed.

Lemma padded_length (l : list Z) n :
  (length l <= n)%nat -> length (padded l n) = n.
Proof.
  intros H. unfold padded. rewrite length_app, length_replicate. lia.
Qed.

Lemma padded_succ (l : list Z) n :
  (length l <= n)%nat -> padded l (S n) = padded l n ++ [1].
Proof.
  intros H. unfold padded.
  replace (S n - length l)%nat with (S (n - length l)) by lia.
  rewrite replicate_S_end. by rewrite app_assoc.
Qed.

(** A base appended alone adds the triple of a scalar. *)
Lemma triples_scalar a e :
  lagging a ->
  triples (mkAcc (bases a ++ [e]) (counts a) (strides a)) =
  triples a ++ [(e, 1, 1)].
Proof.
  intros [Hcs Hcb]. unfold triples; simpl.
  rewrite length_app; simpl. rewrite Nat.add_1_r.
  rewrite !padded_succ by lia.
  rewrite !zip_with_app; [reflexivity | |].
  - rewrite length_zip_with, !padded_length by lia. lia.
  - by rewrite padded_length.
Qed.

(** Filling in the counts and strides of the scalars changes no triple, and
    a triple appended to all three lists is appended as it is. *)
Lemma triples_run a start count step :
  lagging a ->
  triples (mkAcc (bases a ++ [start])
                 (padded (counts a) (length (bases a)) ++ [count])
                 (padded (strides a) (length (bases a)) ++ [step])) =
  triples a ++ [(start, count, step)].
Proof.
  intros [Hcs Hcb]. unfold triples; simpl.
  rewrite length_app; simpl. rewrite Nat.add_1_r.
  rewrite !(padded_full (_ ++ [_]))
    by (rewrite length_app, padded_length; simpl; lia).
  rewrite !zip_with_app; [reflexivity | |].
  - rewrite length_zip_with, !padded_length by lia. lia.
  - by rewrite padded_length.
Qed.

(** What one canonical triple adds to the accumulators. *)
Lemma absorb_triples start count step a a' :
  lagging a -> absorb (start, count, step) a = Ok a' ->
  triples a' =
  triples a ++
  (if count =? 0 then []
   else if count =? 1 then [(start, 1, 1)] else [(start, count, step)]).
Proof.
  intros Ha. unfold absorb.
  destruct (count <? 0); [discriminate|].
  destruct (count =? 0); [intros [= <-]; by rewrite app_nil_r|].
  destruct (count =? 1); [intros [= <-]; by apply triples_scalar|].
  destruct Ha as [Hcs Hcb].
  destruct (Nat.ltb_spec (length (counts a)) (length (bases a)));
    intros [= <-]; simpl.
  - by apply triples_run.
  - rewrite <- (triples_run a) by done.
    rewrite !padded_full by lia. reflexivity.
Qed.

Lemma process_triples nrows fg i elem a a' :
  lagging a -> process nrows fg i elem a = Ok a' ->
  exists more, triples a' = triples a ++ more.
Proof.
  intros Ha. destruct elem; simpl; try (destruct fg; discriminate).
  - destruct (_ || _); [discriminate|]. intros [= <-].
    eexists. by apply triples_scalar.
  - destruct (is_zero _); [discriminate|].
    destruct (negb _); [discriminate|].
    destruct (normalize_slice _ _ _ _) as [[s c] k]. intros H.
    eexists. by eapply absorb_triples.
  - destruct (step =? 0); [discriminate|].
    destruct (normalize_range _ _ _ _) as [[[s c] k]|]; [|discriminate].
    intros H. eexists. by eapply absorb_triples.
Qed.

Lemma loop_triples nrows fg elems : forall i a a',
  lagging a -> loop nrows fg i elems a = Ok a' ->
  exists more, triples a' = triples a ++ more.
Proof.
  induction elems as [|elem rest IH]; intros i a a' Ha; simpl.
  - intros [= <-]. exists []. by rewrite app_nil_r.
  - destruct (process nrows fg i elem a) as [a1|e] eqn:E; simpl; [|discriminate].
    intros Hrest.
    destruct (process_triples _ _ _ _ _ _ Ha E) as [m1 H1].
    destruct (IH _ _ _ (process_lagging _ _ _ _ _ _ Ha E) Hrest) as [m2 H2].
    exists (m1 ++ m2). by rewrite H2, H1, app_assoc.
Qed.

(** The loop runs left to right: a prefix that succeeds hands its
    accumulators to the rest. *)
Lemma loop_app nrows fg pre suf : forall i a,
  loop nrows fg i (pre ++ suf) a =
  a' ← loop nrows fg i pre a; loop nrows fg (i + length pre) suf a'.
Proof.
  induction pre as [|x pre IH]; intros i a; simpl.
  - by rewrite Nat.add_0_r.
  - destruct (process nrows fg i x a) as [a1|e]; simpl; [|done].
    rewrite IH. by rewrite Nat.add_succ_r.
Qed.

(** Two activations suffice: any larger depth computes the same. *)
Lemma rows_selector_depth d st arg nested :
  rows_selector_upto (2 + d) st arg nested = _rows_selector st arg nested.
Proof.
  destruct arg; reflexivity.
Qed.

(** A nested activation never recurs, so one level is all it needs. *)
Lemma rows_selector_nested st arg :
  rows_selector_upto 1 st arg true = _rows_selector st arg true.
Proof. destruct arg; reflexivity. Qed.

(** Every selector that reaches the loop is answered by the loop and the
    compaction that follows it. *)
Lemma rows_selector_collection st arg nested fg elems :
  as_collection st arg = Some (fg, elems) ->
  snd (_rows_selector st arg nested) =
  collection_selector (_nrows (self st)) fg elems.
Proof.
  destruct arg; simpl; intros [= <- <-]; reflexivity.
Qed.

(** Aligned or not, accumulators the loop built never make the subscripts of
    line 354 fail. *)
Lemma compact_lagging a :
  lagging a -> exists out, compact a = Ok out.
Proof.
  intros [Hcs Hcb]. unfold compact.
  destruct (counts a) as [|c cs] eqn:Ec; [eauto|].
  destruct (Nat.eqb_spec (length (bases a)) 1); [|eauto].
  destruct (bases a) as [|b bs]; [discriminate|].
  destruct (strides a) as [|s ss]; [discriminate|].
  simpl. eauto.
Qed.

(** A nested activation invokes no user function and touches nothing but a
    generator it is given. *)
Lemma nested_state st arg :
  fst (_rows_selector st arg true) =
  match arg with
  | PyGenerator g => drain g st
  | _ => st
  end.
Proof. destruct arg; reflexivity. Qed.

(** The outer activation on anything but a function: the same. *)
Lemma outer_state st arg :
  (forall f, arg <> PyFunction f) ->
  fst (_rows_selector st arg false) =
  match arg with
  | PyGenerator g => drain g st
  | _ => st
  end.
Proof. intros Hf. destruct arg; try reflexivity. by destruct (Hf f). Qed.

(** The outer activation on a function is the nested activation on what the
    function returns for the proxy of the source table. *)
Lemma outer_function st f :
  _rows_selector st (PyFunction f) false =
  _rows_selector (log_call (PyFunction f) (mkExpr (self st) 0) st)
                 (f (mkExpr (self st) 0)) true.
Proof. unfold _rows_selector at 1. simpl. apply rows_selector_nested. Qed.

Lemma absorb_raises res a e :
  absorb res a = Raise e -> raised_by_loop e.
Proof.
  destruct res as [[start count] step]. unfold absorb.
  destruct (count <? 0); [by intros [= <-]|].
  destruct (count =? 0); [discriminate|].
  destruct (count =? 1); discriminate.
Qed.

Lemma process_raises nrows fg i elem a e :
  process nrows fg i elem a = Raise e -> raised_by_loop e.
Proof.
  destruct elem; simpl; try (destruct fg; by intros [= <-]).
  - destruct (_ || _); [by intros [= <-] | discriminate].
  - destruct (is_zero _); [by intros [= <-]|].
    destruct (negb _); [by intros [= <-]|]. apply absorb_raises.
  - destruct (step =? 0); [by intros [= <-]|].
    destruct (normalize_range _ _ _ _); [apply absorb_raises|].
    by intros [= <-].
Qed.

Lemma loop_raises nrows fg elems e : forall i a,
  loop nrows fg i elems a = Raise e -> raised_by_loop e.
Proof.
  induction elems as [|elem rest IH]; intros i a; simpl; [discriminate|].
  destruct (process nrows fg i elem a) as [a1|e1] eqn:E; simpl.
  - apply IH.
  - intros [= <-]. by eapply process_raises.
Qed.

(** The loop and the compaction raise nothing but what the source raises by
    name: the subscripts of line 354 are always in range. *)
Lemma collection_selector_raises nrows fg elems e :
  collection_selector nrows fg elems = Raise e -> raised_by_loop e.
Proof.
  unfold collection_selector.
  destruct (loop nrows fg 0 elems (mkAcc [] [] [])) as [a|e1] eqn:E; simpl.
  - destruct (compact_lagging a) as [out ->]; [|discriminate].
    eapply loop_lagging; [apply lagging_empty | exact E].
  - intros [= <-]. by eapply loop_raises.
Qed.

(** No call runs out of nesting depth: [RecursionError] never surfaces. *)
Lemma rows_selector_terminates st arg nested :
  snd (_rows_selector st arg nested) <> Raise RecursionError.
Proof.
  assert (Hcol : forall n fg l,
            collection_selector n fg l <> Raise RecursionError).
  { intros n fg l H. by apply collection_selector_raises in H. }
  assert (Hmask : forall this t, mask_selector this t <> Raise RecursionError).
  { intros this t. unfold mask_selector.
    destruct (negb _); [discriminate|].
    destruct (_ !! _); [|discriminate].
    destruct (negb _); [discriminate|].
    destruct (negb _); discriminate. }
  assert (Hvalue : forall st' v b, (forall f, v <> PyFunction f) \/ b = true ->
            snd (_rows_selector st' v b) <> Raise RecursionError).
  { intros st' v b Hv.
    destruct (as_collection st' v) as [[fg l]|] eqn:E.
    { rewrite (rows_selector_collection st' v b fg l E). apply Hcol. }
    destruct v; try discriminate E; try (destruct b; discriminate).
    - apply Hmask.
    - destruct Hv as [Hv | ->]; [by destruct (Hv f) | discriminate]. }
  destruct nested; [apply Hvalue; by right|].
  destruct arg; try (apply Hvalue; left; discriminate).
  rewrite outer_function. apply Hvalue. by right.
Qed.

(** C1.  For every selector that reaches the element loop and whose elements
    are all accepted, with [a] the accumulators the loop ends with, the
    normalizer returns (it raises nothing) one of three shapes: the index
    array [bases] when [counts] is empty; otherwise the single slice
    [(bases[0], counts[0], strides[0])] when [bases] has exactly one entry;
    otherwise the slice list.  No array is returned when [counts] is
    non-empty, and no slice list when [bases] has a single entry. *)
Theorem compaction_rule st arg nested fg elems a :
  as_collection st arg = Some (fg, elems) ->
  loop (_nrows (self st)) fg 0 elems (mkAcc [] [] []) = Ok a ->
  exists out,
    snd (_rows_selector st arg nested) = Ok out /\
    (counts a = [] -> out = rowmapping_from_array (bases a)) /\
    (counts a <> [] -> length (bases a) = 1%nat ->
     exists b c s,
       bases a = [b] /\ counts a = [c] /\ strides a = [s] /\
       out = rowmapping_from_slice b c s) /\
    (counts a <> [] -> length (bases a) <> 1%nat ->
     out = rowmapping_from_slicelist (bases a) (counts a) (strides a)) /\
    (counts a <> [] -> forall l, out <> rowmapping_from_array l) /\
    (length (bases a) = 1%nat ->
     forall b c s, out <> rowmapping_from_slicelist b c s).
Proof.
  intros Hsel Hloop.
  rewrite (rows_selector_collection _ _ _ _ _ Hsel).
  unfold collection_selector. rewrite Hloop. simpl.
  assert (Hlag : lagging a).
  { eapply loop_lagging; [apply lagging_empty | exact Hloop]. }
  destruct Hlag as [Hcs Hcb]. unfold compact.
  destruct (counts a) as [|c cs] eqn:Ec.
  - eexists; split; [reflexivity|].
    repeat split; try congruence.
  - destruct (Nat.eqb_spec (length (bases a)) 1) as [H1|H1].
    + destruct (bases a) as [|b [|b' bs]]; try discriminate.
      destruct (strides a) as [|s ss]; [discriminate|].
      simpl in Hcs, Hcb.
      assert (cs = []) as -> by (destruct cs; [done | simpl in Hcb; lia]).
      assert (ss = []) as -> by (destruct ss; [done | discriminate]).
      simpl. eexists; split; [reflexivity|].
      repeat split; try congruence; try done.
      intros _ _. by exists b, c, s.
    + eexists; split; [reflexivity|].
      repeat split; try congruence; try done.
Qed.

(** [[slice(0, 5, 1), 3]] on ten rows, for any canonicalizer that reads
    [slice(0, 5, 1)] as [(0, 5, 1)]: the scalar that follows the slice is
    appended to [bases] only, so the loop ends with two bases against one
    count and one stride, and these are the lists the engine is handed. *)
Lemma trailing_scalar st nested :
  _nrows (self st) = 10 ->
  normalize_slice (Some 0) (Some 5) (Some 1) 10 = (0, 5, 1) ->
  let elems := [PySlice (PyInt 0) (PyInt 5) (PyInt 1); PyInt 3] in
  loop 10 false 0 elems (mkAcc [] [] []) = Ok (mkAcc [0; 3] [5] [1]) /\
  ~ aligned (mkAcc [0; 3] [5] [1]) /\
  snd (_rows_selector st (PyList elems) nested) =
  Ok (rowmapping_from_slicelist [0; 3] [5] [1]).
Proof.
  intros Hn Hs elems.
  assert (Hloop : loop 10 false 0 elems (mkAcc [] [] []) =
                  Ok (mkAcc [0; 3] [5] [1])).
  { unfold elems. simpl. rewrite Hs. reflexivity. }
  split; [exact Hloop|]. split.
  - unfold aligned; simpl. intros [H|H]; discriminate.
  - rewrite (rows_selector_collection st (PyList elems) nested false elems eq_refl).
    unfold collection_selector. rewrite Hn, Hloop. reflexivity.
Qed.

(** C2 as the code has it.  At every point of the element loop of a
    collection that is accepted, [counts] and [strides] have the same length
    and are no longer than [bases] (they are filled in lazily, when the next
    slice or range of more than one row arrives), and the triples the
    accumulators stand for at that point are still the first triples at the
    end of the loop: the entries [counts] and [strides] do have are the ones
    of the bases at the same index. *)
Theorem accumulators_lag nrows fg pre suf a :
  loop nrows fg 0 (pre ++ suf) (mkAcc [] [] []) = Ok a ->
  exists a_pre,
    loop nrows fg 0 pre (mkAcc [] [] []) = Ok a_pre /\
    lagging a_pre /\
    exists more, triples a = triples a_pre ++ more.
Proof.
  rewrite loop_app.
  destruct (loop nrows fg 0 pre (mkAcc [] [] [])) as [a_pre|e] eqn:E; simpl;
    [|discriminate].
  intros Hsuf. exists a_pre. split; [reflexivity|].
  assert (Hlag : lagging a_pre).
  { eapply loop_lagging; [apply lagging_empty | exact E]. }
  split; [exact Hlag|]. by eapply loop_triples.
Qed.

Lemma loop_integers nrows fg (es : list Z) : forall i a,
  Forall (fun e => - nrows <= e < nrows) es ->
  loop nrows fg i (map PyInt es) a =
  Ok (mkAcc (bases a ++ map (row_index nrows) es) (counts a) (strides a)).
Proof.
  induction es as [|e es IH]; intros i a Hes; simpl.
  - rewrite app_nil_r. by destruct a.
  - apply Forall_cons in Hes as [He Hes].
    destruct (Z.ltb_spec e (- nrows)); [lia|].
    destruct (Z.geb_spec e nrows); [lia|]. simpl.
    rewrite IH by done. simpl. by rewrite <- app_assoc.
Qed.

(** The rule of lines 337-343 on any accumulators the loop can hold: every
    base that has no count and stride yet is given 1 and 1, then the triple
    is appended. *)
Lemma absorb_backfill s c k a :
  1 < c -> lagging a ->
  absorb (s, c, k) a =
  Ok (mkAcc (bases a ++ [s])
            (padded (counts a) (length (bases a)) ++ [c])
            (padded (strides a) (length (bases a)) ++ [k])).
Proof.
  intros Hc [Hcs Hcb]. unfold absorb.
  destruct (Z.ltb_spec c 0); [lia|].
  destruct (Z.eqb_spec c 0); [lia|].
  destruct (Z.eqb_spec c 1); [lia|].
  destruct (Nat.ltb_spec (length (counts a)) (length (bases a))); simpl.
  - reflexivity.
  - by rewrite !padded_full by lia.
Qed.

(** C4.  In a collection that is one or more integers followed by a slice
    whose canonical triple [(s, c, k)] has a count above 1, the counts and
    strides of the integers are filled in as 1 before the triple of the slice
    is appended: the result is the slice list of the rows of the integers and
    [s], of as many counts 1 and [c], and of as many strides 1 and [k].  The
    same filling in happens on any accumulators the loop can hold when a
    triple with a count above 1 arrives.  ([[3, slice(0, 5, 1)]] on ten rows
    gives bases [3, 0], counts [1, 5] and strides [1, 1].) *)
Theorem scalar_backfilled st arg nested fg (es : list Z) start stop step
    s c k :
  as_collection st arg =
  Some (fg, map PyInt es ++ [PySlice start stop step]) ->
  es <> [] ->
  Forall (fun e => - _nrows (self st) <= e < _nrows (self st)) es ->
  is_zero step = false ->
  forallb none_or_int [start; stop; step] = true ->
  normalize_slice (as_bound start) (as_bound stop) (as_bound step)
                  (_nrows (self st)) = (s, c, k) ->
  1 < c ->
  (forall a, lagging a ->
   absorb (s, c, k) a =
   Ok (mkAcc (bases a ++ [s])
             (padded (counts a) (length (bases a)) ++ [c])
             (padded (strides a) (length (bases a)) ++ [k]))) /\
  loop (_nrows (self st)) fg 0 (map PyInt es) (mkAcc [] [] []) =
  Ok (mkAcc (map (row_index (_nrows (self st))) es) [] []) /\
  loop (_nrows (self st)) fg 0 (map PyInt es ++ [PySlice start stop step])
       (mkAcc [] [] []) =
  Ok (mkAcc (map (row_index (_nrows (self st))) es ++ [s])
            (replicate (length es) 1 ++ [c])
            (replicate (length es) 1 ++ [k])) /\
  snd (_rows_selector st arg nested) =
  Ok (rowmapping_from_slicelist
        (map (row_index (_nrows (self st))) es ++ [s])
        (replicate (length es) 1 ++ [c])
        (replicate (length es) 1 ++ [k])).
Proof.
  intros Hsel Hes Hrows Hstep Hint Hnorm Hc.
  set (n := _nrows (self st)) in *.
  assert (Hscalars : loop n fg 0 (map PyInt es) (mkAcc [] [] []) =
                     Ok (mkAcc (map (row_index n) es) [] [])).
  { by rewrite loop_integers. }
  assert (Hloop : loop n fg 0 (map PyInt es ++ [PySlice start stop step])
                       (mkAcc [] [] []) =
                  Ok (mkAcc (map (row_index n) es ++ [s])
                            (replicate (length es) 1 ++ [c])
                            (replicate (length es) 1 ++ [k]))).
  { rewrite loop_app, Hscalars. simpl. rewrite Hstep.
    simpl in Hint. rewrite Hint. simpl. rewrite Hnorm.
    rewrite absorb_backfill; [|done|split; simpl; lia]. simpl.
    unfold padded. simpl. by rewrite length_map, Nat.sub_0_r. }
  split; [intros a Ha; by apply absorb_backfill|].
  split; [exact Hscalars|]. split; [exact Hloop|].
  rewrite (rows_selector_collection _ _ _ _ _ Hsel).
  unfold collection_selector. fold n. rewrite Hloop. simpl.
  destruct es as [|e es']; [done|]. unfold compact. simpl.
  rewrite length_app, length_map. simpl.
  by replace (length es' + 1 =? 0)%nat with false
    by (symmetry; apply Nat.eqb_neq; lia).
Qed.

(** C5.  The one-element list [[i]] over a table of [nrows] rows: the index
    array [[i]] when [0 <= i < nrows], the index array [[i + nrows]] when
    [-nrows <= i < 0], and otherwise a [ValueError] whose message holds the
    row count ([plural(nrows, 'row')]) and the offending index. *)
Theorem single_index st i nested :
  (0 <= i < _nrows (self st) ->
   snd (_rows_selector st (PyList [PyInt i]) nested) =
   Ok (rowmapping_from_array [i])) /\
  (- _nrows (self st) <= i < 0 ->
   snd (_rows_selector st (PyList [PyInt i]) nested) =
   Ok (rowmapping_from_array [i + _nrows (self st)])) /\
  (i < - _nrows (self st) \/ _nrows (self st) <= i ->
   snd (_rows_selector st (PyList [PyInt i]) nested) =
   Raise (ValueError
     [Txt "datatable contains "; Plural (_nrows (self st)) "row";
      Txt "; row "; Str (PyInt i); Txt " is invalid"])).
Proof.
  rewrite (rows_selector_collection st (PyList [PyInt i]) nested false _ eq_refl).
  unfold collection_selector; simpl.
  set (n := _nrows (self st)).
  repeat split; intros H.
  - destruct (Z.ltb_spec i (- n)); [lia|].
    destruct (Z.geb_spec i n); [lia|]. simpl.
    destruct (Z.ltb_spec i 0); [lia|]. reflexivity.
  - destruct (Z.ltb_spec i (- n)); [lia|].
    destruct (Z.geb_spec i n); [lia|]. simpl.
    destruct (Z.ltb_spec i 0); [|lia]. reflexivity.
  - destruct (Z.ltb_spec i (- n)); [reflexivity|].
    destruct (Z.geb_spec i n); [reflexivity|]. lia.
Qed.

(** C6 as the code has it.  In every collection selector (a list, a tuple,
    a set, a generator) a slice element whose step does not compare equal to
    0 and one of whose bounds is neither [None] nor an integer is rejected,
    once the elements before it were accepted, with a [ValueError] whose
    message names the slice; whatever follows it is not looked at. *)
Theorem non_integer_bound_rejected st arg nested fg pre suf a start stop
    step :
  as_collection st arg = Some (fg, pre ++ PySlice start stop step :: suf) ->
  loop (_nrows (self st)) fg 0 pre (mkAcc [] [] []) = Ok a ->
  is_zero step = false ->
  none_or_int start = false \/ none_or_int stop = false \/
  none_or_int step = false ->
  snd (_rows_selector st arg nested) =
  Raise (ValueError [Str (PySlice start stop step);
                     Txt " is not integer-valued"]).
Proof.
  intros Hsel Hpre Hstep Hbad.
  rewrite (rows_selector_collection _ _ _ _ _ Hsel).
  unfold collection_selector. rewrite loop_app, Hpre. simpl.
  rewrite Hstep.
  assert (none_or_int start && (none_or_int stop && (none_or_int step && true))
          = false) as ->.
  { destruct Hbad as [-> | [-> | ->]]; rewrite ?andb_false_r; reflexivity. }
  reflexivity.
Qed.

(** C7 as the code has it.  A table used as a mask is checked in this order:
    a column count other than 1 raises a [ValueError] that shows the table;
    else a first column type other than ["bool"] raises a [TypeError] that
    names the type; else a row count other than that of the source table
    raises a [ValueError] that holds both row counts; else the result is the
    engine's mapping built from the mask's column. *)
Theorem mask_checks st t nested :
  (_ncols t <> 1 ->
   snd (_rows_selector st (PyDataTable t) nested) =
   Raise (ValueError
     [Txt "`rows` argument should be a single-column datatable, got ";
      Str (PyDataTable t)])) /\
  (forall ty, _ncols t = 1 -> _types t !! 0%nat = Some ty -> ty <> "bool" ->
   snd (_rows_selector st (PyDataTable t) nested) =
   Raise (TypeError
     [Txt "`rows` datatable should be a boolean column, however it has type ";
      Str (PyStr ty)])) /\
  (_ncols t = 1 -> _types t !! 0%nat = Some "bool" ->
   _nrows t <> _nrows (self st) ->
   snd (_rows_selector st (PyDataTable t) nested) =
   Raise (ValueError
     [Txt "`rows` datatable has "; Plural (_nrows t) "row";
      Txt ", but applied to a datatable with ";
      Plural (_nrows (self st)) "row"])) /\
  (_ncols t = 1 -> _types t !! 0%nat = Some "bool" ->
   _nrows t = _nrows (self st) ->
   snd (_rows_selector st (PyDataTable t) nested) =
   Ok (rowmapping_from_column (_dt t))).
Proof.
  change (snd (_rows_selector st (PyDataTable t) nested))
    with (mask_selector (self st) t).
  unfold mask_selector. repeat split.
  - intros H. destruct (Z.eqb_spec (_ncols t) 1); [done|]. reflexivity.
  - intros ty Hc Hty Hne. rewrite Hc, Hty. simpl.
    destruct (String.eqb_spec ty "bool"); [done|]. reflexivity.
  - intros Hc Hty Hne. rewrite Hc, Hty. simpl.
    destruct (Z.eqb_spec (_nrows t) (_nrows (self st))); [done|]. reflexivity.
  - intros Hc Hty He. rewrite Hc, Hty, He. simpl.
    rewrite Z.eqb_refl. reflexivity.
Qed.




Context (dt_call : c_DataTable -> RowMapping -> c_DataTable).
Context (dt_ncols dt_nrows : c_DataTable -> Z).

Local Abbreviation __call__ :=
  (__call__ normalize_slice normalize_range dt_call dt_ncols dt_nrows).

(** C10.  A call that leaves [rows] out normalizes [None]: it raises the
    outer-call [TypeError] for an unexpected [rows] argument (nothing is
    selected, no table is built, the state is as before).  The ellipsis is
    the selector answered with the identity slice [(0, nrows, 1)]. *)
Theorem rows_default_rejected st :
  __call__ st None =
  (st, Raise (TypeError [Txt "Unexpected `rows` argument: "; Repr PyNone])) /\
  _rows_selector st PyNone false =
  (st, Raise (TypeError [Txt "Unexpected `rows` argument: "; Repr PyNone])) /\
  _rows_selector st Ellipsis false =
  (st, Ok (rowmapping_from_slice 0 (_nrows (self st)) 1)).
Proof. repeat split. Qed.

End Properties.

(** ** The canonicalizers of the specification *)

(** A slice never has a negative count, so the assertion of line 332 holds
    for every slice. *)
Lemma canonicalize_slice_count start stop step nrows :
  0 <= snd (fst (canonicalize_slice start stop step nrows)).
Proof.
  unfold canonicalize_slice; simpl.
  set (k := default 1 step).
  destruct (Z.ltb_spec k 0).
  - match goal with |- context [if ?a <? ?b then _ else _] =>
      destruct (Z.ltb_spec a b); [|lia] end.
    apply Z.add_nonneg_nonneg; [|lia].
    apply Z.div_pos; lia.
  - match goal with |- context [if ?a <? ?b then _ else _] =>
      destruct (Z.ltb_spec a b); [|lia] end.
    destruct (Z.eq_dec k 0) as [->|].
    + rewrite Z.div_0_r. lia.
    + apply Z.add_nonneg_nonneg; [|lia]. apply Z.div_pos; lia.
Qed.

(** [range(n - 1, -1, -1)] expands to [n - 1, ..., 0]: every index is a row
    of an [n]-row table, and the range is all rows in reverse. *)
Lemma reversed_range_accepted n :
  0 < n -> canonicalize_range (n - 1) (-1) (-1) n = Some (n - 1, n, -1).
Proof.
  intros Hn. unfold canonicalize_range, range_expand.
  assert (Hlen : range_length (n - 1) (-1) (-1) = n).
  { unfold range_length. simpl.
    destruct (Z.ltb_spec (-1) (n - 1)); [|lia].
    change (- -1) with 1. rewrite Z.div_1_r. lia. }
  rewrite Hlen.
  destruct (Z.to_nat n) as [|m] eqn:Em; [lia|].
  assert (Hall : forallb (fun i => (0 <=? i) && (i <? n))
            (map (fun k => n - 1 + Z.of_nat k * -1) (seq 0 (S m))) = true).
  { apply forallb_forall. intros i [k [<- Hk]]%in_map_iff.
    apply in_seq in Hk. apply andb_true_iff; split.
    - apply Z.leb_le. lia.
    - apply Z.ltb_lt. lia. }
  rewrite Hall, length_map, length_seq. simpl.
  do 2 f_equal. f_equal; lia.
Qed.

(** C3 as the specification's canonicalizers have it.  On ten rows,
    [[slice(None, None, -1)]] is the slice [(9, 10, -1)], and so is
    [[range(9, -1, -1)]], whose expansion [9, 8, ..., 0] stays within the
    table; the slice with that triple, [slice(9, -1, -1)], selects nothing.
    A range is rejected, with a [ValueError] naming the range and the row
    count, when an index it produces is no row: [range(9, -2, -1)] ends with
    the index -1. *)
Theorem slice_range_reversal st :
  _nrows (self st) = 10 ->
  normalize st (PyList [PySlice PyNone PyNone (PyInt (-1))]) =
  Ok (rowmapping_from_slice 9 10 (-1)) /\
  range_expand 9 (-1) (-1) = [9; 8; 7; 6; 5; 4; 3; 2; 1; 0] /\
  normalize st (PyList [PyRange 9 (-1) (-1)]) =
  Ok (rowmapping_from_slice 9 10 (-1)) /\
  normalize st (PyList [PySlice (PyInt 9) (PyInt (-1)) (PyInt (-1))]) =
  Ok (rowmapping_from_array []) /\
  range_expand 9 (-2) (-1) = [9; 8; 7; 6; 5; 4; 3; 2; 1; 0; -1] /\
  normalize st (PyList [PyRange 9 (-2) (-1)]) =
  Raise (ValueError
    [Txt "Invalid "; Str (PyRange 9 (-2) (-1));
     Txt " for a datatable with "; Plural 10 "row"]).
Proof.
  intros Hn. unfold normalize, run.
  rewrite !(rows_selector_collection _ _ st (PyList _) false false _ eq_refl).
  rewrite Hn. repeat split.
Qed.

(** ** The theorems at sample inputs *)

(** [[slice(0, 5, 1)]] on ten rows: one base, one count, the single slice. *)
Lemma compaction_rule_witness :
  as_collection state10 (PySlice (PyInt 0) (PyInt 5) (PyInt 1)) =
  Some (false, [PySlice (PyInt 0) (PyInt 5) (PyInt 1)]) /\
  loop canonicalize_slice canonicalize_range 10 false 0
       [PySlice (PyInt 0) (PyInt 5) (PyInt 1)] (mkAcc [] [] []) =
  Ok (mkAcc [0] [5] [1]) /\
  normalize state10 (PySlice (PyInt 0) (PyInt 5) (PyInt 1)) =
  Ok (rowmapping_from_slice 0 5 1).
Proof.
  split; [reflexivity|]. split; [reflexivity|].
  destruct (compaction_rule canonicalize_slice canonicalize_range state10
              (PySlice (PyInt 0) (PyInt 5) (PyInt 1)) false false
              [PySlice (PyInt 0) (PyInt 5) (PyInt 1)] (mkAcc [0] [5] [1])
              eq_refl eq_refl)
    as (out & Hout & _ & Hslice & _).
  destruct (Hslice ltac:(discriminate) eq_refl)
    as (b & c & s & [= <-] & [= <-] & [= <-] & ->).
  exact Hout.
Defined.

(** [[slice(0, 5, 1), 3, slice(0, 2, 1)]] on ten rows, after its first two
    elements. *)
Lemma accumulators_lag_witness :
  loop canonicalize_slice canonicalize_range 10 false 0
       ([PySlice (PyInt 0) (PyInt 5) (PyInt 1); PyInt 3] ++
        [PySlice (PyInt 0) (PyInt 2) (PyInt 1)]) (mkAcc [] [] []) =
  Ok (mkAcc [0; 3; 0] [5; 1; 2] [1; 1; 1]) /\
  exists a_pre,
    loop canonicalize_slice canonicalize_range 10 false 0
         [PySlice (PyInt 0) (PyInt 5) (PyInt 1); PyInt 3] (mkAcc [] [] []) =
    Ok a_pre /\
    lagging a_pre /\
    exists more,
      triples (mkAcc [0; 3; 0] [5; 1; 2] [1; 1; 1]) = triples a_pre ++ more.
Proof.
  split; [reflexivity|].
  apply (accumulators_lag canonicalize_slice canonicalize_range 10 false
           [PySlice (PyInt 0) (PyInt 5) (PyInt 1); PyInt 3]
           [PySlice (PyInt 0) (PyInt 2) (PyInt 1)]
           (mkAcc [0; 3; 0] [5; 1; 2] [1; 1; 1]) eq_refl).
Defined.

(** [[3, slice(0, 5, 1)]] on ten rows. *)
Lemma scalar_backfilled_witness :
  as_collection state10
    (PyList (map PyInt [3] ++ [PySlice (PyInt 0) (PyInt 5) (PyInt 1)])) =
  Some (false, map PyInt [3] ++ [PySlice (PyInt 0) (PyInt 5) (PyInt 1)]) /\
  canonicalize_slice (Some 0) (Some 5) (Some 1) 10 = (0, 5, 1) /\
  normalize state10 (PyList [PyInt 3; PySlice (PyInt 0) (PyInt 5) (PyInt 1)]) =
  Ok (rowmapping_from_slicelist [3; 0] [1; 5] [1; 1]).
Proof.
  split; [reflexivity|]. split; [reflexivity|].
  apply (scalar_backfilled canonicalize_slice canonicalize_range state10
           (PyList (map PyInt [3] ++ [PySlice (PyInt 0) (PyInt 5) (PyInt 1)]))
           false false [3] (PyInt 0) (PyInt 5) (PyInt 1) 0 5 1
           eq_refl ltac:(discriminate)).
  - repeat constructor; simpl; lia.
  - reflexivity.
  - reflexivity.
  - reflexivity.
  - lia.
Defined.

(** The last row by its negative index, and the first index past the end. *)
Lemma single_index_witness :
  normalize state10 (PyList [PyInt (-1)]) = Ok (rowmapping_from_array [9]) /\
  normalize state10 (PyList [PyInt 10]) =
  Raise (ValueError
    [Txt "datatable contains "; Plural 10 "row"; Txt "; row ";
     Str (PyInt 10); Txt " is invalid"]).
Proof.
  split.
  - apply (single_index canonicalize_slice canonicalize_range
             state10 (-1) false). simpl. lia.
  - apply (single_index canonicalize_slice canonicalize_range
             state10 10 false). simpl. lia.
Defined.

(** A generator that is about to yield 0, [slice(0.5, None, None)] and 1. *)
Lemma non_integer_bound_rejected_witness :
  as_collection
    (mkState table10 2
       {[0%nat := [PyInt 0] ++
                  PySlice (PyOther false "0.5") PyNone PyNone :: [PyInt 1]]} [])
    (PyGenerator 0) =
  Some (true, [PyInt 0] ++
              PySlice (PyOther false "0.5") PyNone PyNone :: [PyInt 1]) /\
  is_zero PyNone = false /\
  none_or_int (PyOther false "0.5") = false /\
  normalize
    (mkState table10 2
       {[0%nat := [PyInt 0] ++
                  PySlice (PyOther false "0.5") PyNone PyNone :: [PyInt 1]]} [])
    (PyGenerator 0) =
  Raise (ValueError [Str (PySlice (PyOther false "0.5") PyNone PyNone);
                     Txt " is not integer-valued"]).
Proof.
  assert (Hsel : as_collection
    (mkState table10 2
       {[0%nat := [PyInt 0] ++
                  PySlice (PyOther false "0.5") PyNone PyNone :: [PyInt 1]]} [])
    (PyGenerator 0) =
    Some (true, [PyInt 0] ++
                PySlice (PyOther false "0.5") PyNone PyNone :: [PyInt 1]))
    by (vm_compute; reflexivity).
  split; [exact Hsel|]. split; [reflexivity|]. split; [reflexivity|].
  apply (non_integer_bound_rejected canonicalize_slice canonicalize_range
           _ (PyGenerator 0) false true [PyInt 0] [PyInt 1] (mkAcc [0] [] [])
           (PyOther false "0.5") PyNone PyNone Hsel eq_refl eq_refl).
  left. reflexivity.
Defined.

(** The integer column as a mask. *)
Lemma mask_checks_witness :
  _ncols int_column = 1 /\ _types int_column !! 0%nat = Some "int" /\
  normalize state10 (PyDataTable int_column) =
  Raise (TypeError
    [Txt "`rows` datatable should be a boolean column, however it has type ";
     Str (PyStr "int")]).
Proof.
  split; [reflexivity|]. split; [reflexivity|].
  apply (mask_checks canonicalize_slice canonicalize_range
           state10 int_column false); [reflexivity | reflexivity |].
  discriminate.
Defined.



Lemma slice_range_reversal_witness :
  _nrows (self state10) = 10 /\
  normalize state10 (PyList [PyRange 9 (-1) (-1)]) =
  Ok (rowmapping_from_slice 9 10 (-1)).
Proof.
  split; [reflexivity|].
  apply (slice_range_reversal state10 eq_refl).
Defined.

(** ** Where the code departs from a claim *)

(** C2: after [[slice(0, 5, 1), 3]] on ten rows [counts] has one entry and
    [bases] two. *)
Lemma trailing_scalar_not_aligned :
  loop canonicalize_slice canonicalize_range 10 false 0
       [PySlice (PyInt 0) (PyInt 5) (PyInt 1); PyInt 3] (mkAcc [] [] []) =
  Ok (mkAcc [0; 3] [5] [1]) /\
  ~ aligned (mkAcc [0; 3] [5] [1]) /\
  normalize state10 (PyList [PySlice (PyInt 0) (PyInt 5) (PyInt 1); PyInt 3]) =
  Ok (rowmapping_from_slicelist [0; 3] [5] [1]).
Proof.
  apply (trailing_scalar canonicalize_slice canonicalize_range
           state10 false eq_refl eq_refl).
Qed.

(** C3: [[range(9, -1, -1)]] on ten rows is not rejected. *)
Lemma reversed_range_not_rejected :
  normalize state10 (PyList [PyRange 9 (-1) (-1)]) =
  Ok (rowmapping_from_slice 9 10 (-1)) /\
  ~ exists e, normalize state10 (PyList [PyRange 9 (-1) (-1)]) = Raise e.
Proof. split; [reflexivity|]. intros [e He]. discriminate He. Qed.

(** C6: [[slice(0.5, None, None)]] raises, and the exception is not a
    [TypeError]. *)
Lemma non_integer_bound_not_type_error :
  is_zero PyNone = false /\ none_or_int (PyOther false "0.5") = false /\
  ~ exists m,
      normalize state10 (PyList [PySlice (PyOther false "0.5") PyNone PyNone]) =
      Raise (TypeError m).
Proof.
  split; [reflexivity|]. split; [reflexivity|].
  intros [m Hm]. discriminate Hm.
Qed.

(** C7: a single column of the right length whose type is ["int"] raises,
    and the exception is not a [ValueError]. *)
Lemma mask_type_not_value_error :
  _ncols int_column = 1 /\ _types int_column !! 0%nat = Some "int" /\
  _nrows int_column = _nrows (self state10) /\
  ~ exists m, normalize state10 (PyDataTable int_column) = Raise (ValueError m).
Proof.
  repeat split. intros [m Hm]. discriminate Hm.
Qed.



(** * The rest of the class *)

(** ** The element loop, element by element *)

Section Elements.

Context (normalize_slice : option Z -> option Z -> option Z -> Z -> canonical).
Context (normalize_range : Z -> Z -> Z -> Z -> option canonical).

Local Abbreviation process := (process normalize_slice normalize_range).
Local Abbreviation loop := (loop normalize_slice normalize_range).
Local Abbreviation collection_selector :=
  (collection_selector normalize_slice normalize_range).
Local Abbreviation _rows_selector := (_rows_selector normalize_slice normalize_range).
Local Abbreviation element_triples :=
  (element_triples normalize_slice normalize_range).

(** Whether an element is accepted, and the exception when it is not, has
    nothing to do with the accumulators. *)
Lemma absorb_raise_any res a b e :
  absorb res a = Raise e -> absorb res b = Raise e.
Proof.
  destruct res as [[start count] step]. unfold absorb.
  destruct (count <? 0); [done|].
  destruct (count =? 0); [discriminate|].
  destruct (count =? 1); discriminate.
Qed.

Lemma process_raise_any nrows fg i elem a b e :
  process nrows fg i elem a = Raise e -> process nrows fg i elem b = Raise e.
Proof.
  destruct elem; simpl; try done.
  - destruct (_ || _); [done | discriminate].
  - destruct (is_zero _); [done|]. destruct (negb _); [done|].
    apply absorb_raise_any.
  - destruct (step =? 0); [done|].
    destruct (normalize_range _ _ _ _); [apply absorb_raise_any | done].
Qed.

Lemma absorb_accept_any res a a' b :
  absorb res a = Ok a' -> exists b', absorb res b = Ok b'.
Proof.
  destruct res as [[start count] step]. unfold absorb.
  destruct (count <? 0); [discriminate|].
  destruct (count =? 0); [eauto|]. destruct (count =? 1); eauto.
Qed.

(** Nor has acceptance to do with the position or the kind of collection. *)
Lemma process_accept_any nrows fg i elem a a' fg' j b :
  process nrows fg i elem a = Ok a' ->
  exists b', process nrows fg' j elem b = Ok b'.
Proof.
  destruct elem; simpl; try (destruct fg; discriminate).
  - destruct (_ || _); [discriminate | eauto].
  - destruct (is_zero _); [discriminate|]. destruct (negb _); [discriminate|].
    apply absorb_accept_any.
  - destruct (step =? 0); [discriminate|].
    destruct (normalize_range _ _ _ _); [apply absorb_accept_any | discriminate].
Qed.

(** An accepted element adds its own triples, whatever came before. *)
Lemma process_element_triples nrows fg i elem a a' :
  lagging a -> process nrows fg i elem a = Ok a' ->
  triples a' = triples a ++ element_triples nrows elem.
Proof.
  intros Ha. destruct elem; simpl; try (destruct fg; discriminate).
  - destruct (_ || _); [discriminate|]. intros [= <-].
    by apply triples_scalar.
  - destruct (is_zero _); [discriminate|]. destruct (negb _); [discriminate|].
    destruct (normalize_slice _ _ _ _) as [[s c] k].
    by apply absorb_triples.
  - destruct (step =? 0); [discriminate|].
    destruct (normalize_range _ _ _ _) as [[[s c] k]|]; [|discriminate].
    by apply absorb_triples.
Qed.

Lemma loop_element_triples nrows fg elems : forall i a a',
  lagging a -> loop nrows fg i elems a = Ok a' ->
  triples a' = triples a ++ concat (map (element_triples nrows) elems).
Proof.
  induction elems as [|elem rest IH]; intros i a a' Ha; simpl.
  - intros [= <-]. by rewrite app_nil_r.
  - destruct (process nrows fg i elem a) as [a1|e] eqn:E; simpl; [|discriminate].
    intros Hrest.
    rewrite (IH _ _ _ (process_lagging _ _ _ _ _ _ _ _ Ha E) Hrest).
    rewrite (process_element_triples _ _ _ _ _ _ Ha E).
    by rewrite app_assoc.
Qed.

Lemma zip3_starts (l k1 k2 : list Z) :
  (length l <= length k1)%nat -> (length l <= length k2)%nat ->
  map (fun t : canonical => t.1.1) (zip (zip l k1) k2) = l.
Proof.
  revert k1 k2. induction l as [|x l IH]; intros [|y k1] [|z k2]; simpl;
    try done; try lia.
  intros H1 H2. f_equal. apply IH; lia.
Qed.

(** The starts of the triples are the bases. *)
Lemma triples_bases a :
  lagging a -> map (fun t : canonical => t.1.1) (triples a) = bases a.
Proof.
  intros [Hcs Hcb]. unfold triples.
  apply zip3_starts; rewrite padded_length; lia.
Qed.

(** X1.  The accumulators a collection ends the loop with, read as triples,
    are the triples of its elements, one element after the other; the bases
    are their starts. *)
Theorem selection_in_order nrows fg elems a :
  loop nrows fg 0 elems (mkAcc [] [] []) = Ok a ->
  triples a = concat (map (element_triples nrows) elems) /\
  bases a =
  map (fun t : canonical => t.1.1)
      (concat (map (element_triples nrows) elems)).
Proof.
  intros Hloop.
  assert (Ht : triples a = concat (map (element_triples nrows) elems)).
  { by rewrite (loop_element_triples _ _ _ _ _ _ (lagging_empty) Hloop). }
  split; [exact Ht|]. rewrite <- Ht. symmetry. apply triples_bases.
  eapply loop_lagging; [apply lagging_empty | exact Hloop].
Qed.

Lemma loop_accepts nrows fg elems : forall i a,
  (exists a', loop nrows fg i elems a = Ok a') <->
  Forall (fun elem =>
            exists a', process nrows fg 0 elem (mkAcc [] [] []) = Ok a')
         elems.
Proof.
  induction elems as [|elem rest IH]; intros i a; simpl.
  - split; [constructor | eauto].
  - split.
    + intros [a' H].
      destruct (process nrows fg i elem a) as [a1|e] eqn:E; simpl in H;
        [|discriminate].
      constructor; [by eapply process_accept_any|].
      apply (IH (S i) a1). eauto.
    + intros H. apply Forall_cons in H as [[a0 H0] Hrest].
      destruct (process_accept_any _ _ _ _ _ _ fg i a H0) as [a1 ->]. simpl.
      by apply IH.
Qed.

(** X2.  A collection is accepted exactly when each of its elements is
    accepted on its own: neither the position of an element nor what
    precedes it decides whether it passes. *)
Theorem accepted_elementwise nrows fg elems :
  (exists out, collection_selector nrows fg elems = Ok out) <->
  Forall (fun elem =>
            exists out, collection_selector nrows fg [elem] = Ok out)
         elems.
Proof.
  assert (Hone : forall l,
    (exists out, collection_selector nrows fg l = Ok out) <->
    (exists a, loop nrows fg 0 l (mkAcc [] [] []) = Ok a)).
  { intros l. unfold collection_selector. split.
    - intros [out H].
      destruct (loop nrows fg 0 l _) as [a|e]; [eauto | discriminate].
    - intros [a H]. rewrite H. simpl. apply compact_lagging.
      eapply loop_lagging; [apply lagging_empty | exact H]. }
  rewrite Hone, loop_accepts. apply Forall_proper; [|done].
  intros elem. rewrite Hone. simpl.
  destruct (process nrows fg 0 elem _); simpl; split; intros [x H]; eauto;
    discriminate.
Qed.

(** The first element that is not accepted decides the outcome. *)
Lemma collection_first_error nrows fg pre elem suf a e :
  loop nrows fg 0 pre (mkAcc [] [] []) = Ok a ->
  process nrows fg (length pre) elem (mkAcc [] [] []) = Raise e ->
  collection_selector nrows fg (pre ++ elem :: suf) = Raise e.
Proof.
  intros Hpre He.
  unfold collection_selector. rewrite loop_app, Hpre. simpl.
  by rewrite (process_raise_any _ _ _ _ _ a _ He).
Qed.

Lemma selector_first_error st arg nested fg pre elem suf a e :
  as_collection st arg = Some (fg, pre ++ elem :: suf) ->
  loop (_nrows (self st)) fg 0 pre (mkAcc [] [] []) = Ok a ->
  process (_nrows (self st)) fg (length pre) elem (mkAcc [] [] []) = Raise e ->
  snd (_rows_selector st arg nested) = Raise e.
Proof.
  intros Hsel Hpre He.
  rewrite (rows_selector_collection _ _ _ _ _ _ _ Hsel).
  by eapply collection_first_error.
Qed.

Lemma loop_raise_split nrows fg elems e : forall i a,
  loop nrows fg i elems a = Raise e ->
  exists pre elem suf a1,
    elems = pre ++ elem :: suf /\
    loop nrows fg i pre a = Ok a1 /\
    process nrows fg (i + length pre) elem a1 = Raise e.
Proof.
  induction elems as [|elem rest IH]; intros i a; simpl; [discriminate|].
  destruct (process nrows fg i elem a) as [a1|e1] eqn:E; simpl.
  - intros H. destruct (IH _ _ H) as (pre & x & suf & a2 & -> & Hpre & Hx).
    exists (elem :: pre), x, suf, a2. simpl. rewrite E. simpl.
    repeat split; try done. by rewrite Nat.add_succ_r.
  - intros [= <-]. exists [], elem, rest, a. simpl.
    rewrite Nat.add_0_r. by repeat split.
Qed.

(** X3.  A collection is rejected exactly by its first element that is not
    accepted: the call raises what that element raises at its position, the
    elements before it having passed and the elements after it not being
    looked at. *)
Theorem first_error_wins nrows fg elems e :
  collection_selector nrows fg elems = Raise e <->
  exists pre elem suf,
    elems = pre ++ elem :: suf /\
    (exists a, loop nrows fg 0 pre (mkAcc [] [] []) = Ok a) /\
    process nrows fg (length pre) elem (mkAcc [] [] []) = Raise e.
Proof.
  split.
  - unfold collection_selector.
    destruct (loop nrows fg 0 elems _) as [a|e1] eqn:E; simpl.
    + destruct (compact_lagging a) as [out ->]; [|discriminate].
      eapply loop_lagging; [apply lagging_empty | exact E].
    + intros [= ->].
      destruct (loop_raise_split _ _ _ _ _ _ E)
        as (pre & elem & suf & a1 & -> & Hpre & He).
      exists pre, elem, suf. repeat split; eauto.
      by apply (process_raise_any _ _ _ _ a1).
  - intros (pre & elem & suf & -> & [a Hpre] & He).
    by eapply collection_first_error.
Qed.

(** X4.  A collection of integers.  When every one is a row, counted from
    the start or from the end, the result is the index array of the same
    length and order, every index counted from the start; otherwise the
    first integer that is no row raises the [ValueError] that holds the row
    count and that integer. *)
Theorem integer_collection st arg nested fg (es : list Z) :
  as_collection st arg = Some (fg, map PyInt es) ->
  (Forall (fun e => - _nrows (self st) <= e < _nrows (self st)) es ->
   snd (_rows_selector st arg nested) =
   Ok (rowmapping_from_array (map (row_index (_nrows (self st))) es)) /\
   Forall (fun i => 0 <= i < _nrows (self st))
          (map (row_index (_nrows (self st))) es)) /\
  (forall pre e suf,
   es = pre ++ e :: suf ->
   Forall (fun e => - _nrows (self st) <= e < _nrows (self st)) pre ->
   ~ - _nrows (self st) <= e < _nrows (self st) ->
   snd (_rows_selector st arg nested) =
   Raise (ValueError
     [Txt "datatable contains "; Plural (_nrows (self st)) "row";
      Txt "; row "; Str (PyInt e); Txt " is invalid"])).
Proof.
  intros Hsel. set (n := _nrows (self st)). split.
  - intros Hes. split.
    + rewrite (rows_selector_collection _ _ _ _ _ _ _ Hsel).
      unfold collection_selector. by rewrite loop_integers.
    + apply Forall_map. eapply Forall_impl; [exact Hes|].
      intros e He. unfold row_index. simpl in *. subst n.
      destruct (Z.ltb_spec e 0); lia.
  - intros pre e suf -> Hpre He.
    rewrite map_app in Hsel. simpl in Hsel.
    eapply selector_first_error; [exact Hsel | by apply loop_integers |].
    simpl. fold n.
    destruct (Z.ltb_spec e (- n)); [done|].
    destruct (Z.geb_spec e n); [done | lia].
Qed.

(** X5.  An element that is neither an integer nor a slice nor a range (an
    ellipsis, [None], a nested list, a string, ...) raises a [TypeError] that
    cites it and its position, counted from 0: "at element i of the `rows`
    list" for a list, tuple or set, "generated at position i" for a
    generator. *)
Theorem unsupported_element st arg nested fg pre elem suf a :
  as_collection st arg = Some (fg, pre ++ elem :: suf) ->
  loop (_nrows (self st)) fg 0 pre (mkAcc [] [] []) = Ok a ->
  is_row_element elem = false ->
  snd (_rows_selector st arg nested) =
  Raise (TypeError
    (if fg
     then [Txt "Invalid row selector "; Str elem;
           Txt " generated at position "; Str (PyInt (Z.of_nat (length pre)))]
     else [Txt "Invalid row selector "; Str elem; Txt " at element ";
           Str (PyInt (Z.of_nat (length pre))); Txt " of the `rows` list"])).
Proof.
  intros Hsel Hpre Hel.
  eapply selector_first_error; [exact Hsel | exact Hpre |].
  destruct elem; try discriminate Hel; by destruct fg.
Qed.

(** X6.  A slice or range whose step compares equal to 0 raises the
    [ValueError] "In ... step must not be 0", whatever its other bounds are:
    the step is tested before the bounds are tested for being integers. *)
Theorem zero_step_rejected st arg nested fg pre elem suf a :
  as_collection st arg = Some (fg, pre ++ elem :: suf) ->
  loop (_nrows (self st)) fg 0 pre (mkAcc [] [] []) = Ok a ->
  has_zero_step elem = true ->
  snd (_rows_selector st arg nested) =
  Raise (ValueError [Txt "In "; Repr elem; Txt " step must not be 0"]).
Proof.
  intros Hsel Hpre Hel.
  eapply selector_first_error; [exact Hsel | exact Hpre |].
  destruct elem; try discriminate Hel; simpl in *; by rewrite Hel.
Qed.

Lemma process_generator nrows i elem a :
  is_row_element elem = true ->
  process nrows true i elem a = process nrows false i elem a.
Proof. by destruct elem. Qed.

Lemma process_type_error nrows i elem a :
  is_row_element elem = false ->
  exists m, process nrows false i elem a = Raise (TypeError m).
Proof. destruct elem; try discriminate; simpl; eauto. Qed.

Lemma loop_generator nrows elems : forall i a,
  (forall m, loop nrows false i elems a <> Raise (TypeError m)) ->
  loop nrows true i elems a = loop nrows false i elems a.
Proof.
  induction elems as [|elem rest IH]; intros i a H; simpl in *; [done|].
  destruct (is_row_element elem) eqn:Hel.
  - rewrite process_generator by done.
    destruct (process nrows false i elem a) as [a1|e]; simpl in *; [|done].
    by apply IH.
  - destruct (process_type_error nrows i elem a Hel) as [m Hm].
    rewrite Hm in H. simpl in H. by destruct (H m).
Qed.

(** X7.  A generator is normalized as the list of the items it yields: the
    same result, and the same exception, unless the list raises the
    [TypeError] for an unsupported element, whose wording differs. *)
Theorem generator_as_list st g nested :
  (forall m, snd (_rows_selector st (PyList (remaining g st)) nested) <>
             Raise (TypeError m)) ->
  snd (_rows_selector st (PyGenerator g) nested) =
  snd (_rows_selector st (PyList (remaining g st)) nested).
Proof.
  rewrite (rows_selector_collection _ _ st (PyGenerator g) nested true
             (remaining g st) eq_refl).
  rewrite (rows_selector_collection _ _ st (PyList _) nested false
             (remaining g st) eq_refl).
  unfold collection_selector. intros H.
  rewrite loop_generator; [done|].
  intros m Hm. apply (H m). by rewrite Hm.
Qed.

(** X8.  A function selector stands for the value it returns: when that
    value is one [_rows_selector] has a branch for, the call returns or
    raises what a call on the value itself would, and leaves the generators
    as that call would. *)
Theorem function_as_value st f :
  recognized (f (mkExpr (self st) 0)) = true ->
  snd (_rows_selector st (PyFunction f) false) =
  snd (_rows_selector st (f (mkExpr (self st) 0)) false) /\
  generators (fst (_rows_selector st (PyFunction f) false)) =
  generators (fst (_rows_selector st (f (mkExpr (self st) 0)) false)).
Proof.
  intros Hrec. rewrite outer_function.
  destruct (f _); try discriminate Hrec; split; reflexivity.
Qed.

Lemma absorb_counted res a a' :
  counted (counts a) -> absorb res a = Ok a' -> counted (counts a').
Proof.
  destruct res as [[start count] step]. unfold absorb. intros Ha.
  destruct (Z.ltb_spec count 0); [discriminate|].
  destruct (Z.eqb_spec count 0); [by intros [= <-]|].
  destruct (Z.eqb_spec count 1); [by intros [= <-]|].
  destruct Ha as [Hall Hlast].
  assert (Hnew : forall cs, Forall (fun c => 1 <= c) cs ->
                   counted (cs ++ [count])).
  { intros cs Hcs. split.
    - apply Forall_app. split; [done|]. apply Forall_singleton. lia.
    - intros c. rewrite last_snoc. intros [= <-]. lia. }
  destruct (length (counts a) <? length (bases a))%nat; intros [= <-]; simpl;
    apply Hnew; [|done].
  apply Forall_app. split; [done|]. by apply Forall_replicate.
Qed.

Lemma process_counted nrows fg i elem a a' :
  counted (counts a) -> process nrows fg i elem a = Ok a' ->
  counted (counts a').
Proof.
  intros Ha. destruct elem; simpl; try (destruct fg; discriminate).
  - destruct (_ || _); [discriminate|]. by intros [= <-].
  - destruct (is_zero _); [discriminate|]. destruct (negb _); [discriminate|].
    by apply absorb_counted.
  - destruct (step =? 0); [discriminate|].
    destruct (normalize_range _ _ _ _); [|discriminate].
    by apply absorb_counted.
Qed.

Lemma loop_counted nrows fg elems : forall i a a',
  counted (counts a) -> loop nrows fg i elems a = Ok a' ->
  counted (counts a').
Proof.
  induction elems as [|elem rest IH]; intros i a a' Ha; simpl.
  - by intros [= <-].
  - destruct (process nrows fg i elem a) as [a1|e] eqn:E; simpl; [|discriminate].
    apply IH. by eapply process_counted.
Qed.

Lemma counted_empty : counted [].
Proof. split; [constructor | discriminate]. Qed.

(** What a collection that is accepted ends with: the accumulators and the
    mapping compacted from them. *)
Lemma collection_result st arg nested fg elems out :
  as_collection st arg = Some (fg, elems) ->
  snd (_rows_selector st arg nested) = Ok out ->
  exists a,
    loop (_nrows (self st)) fg 0 elems (mkAcc [] [] []) = Ok a /\
    lagging a /\ counted (counts a) /\ compact a = Ok out.
Proof.
  intros Hsel. rewrite (rows_selector_collection _ _ _ _ _ _ _ Hsel).
  unfold collection_selector.
  destruct (loop _ fg 0 elems _) as [a|e] eqn:E; simpl; [|discriminate].
  intros Hout. exists a. split; [done|]. split.
  - eapply loop_lagging; [apply lagging_empty | exact E].
  - split; [|done].
    exact (loop_counted _ _ _ 0%nat (mkAcc [] [] []) a counted_empty E).
Qed.

(** X9.  What the engine is handed for a collection: an index array, a
    slice of at least two rows, or a slice list of at least two bases whose
    counts and strides are equally many, at least one and no more than the
    bases, every count at least 1 and the last at least 2; never a mask or
    an expression. *)
Theorem engine_arguments st arg nested fg elems out :
  as_collection st arg = Some (fg, elems) ->
  snd (_rows_selector st arg nested) = Ok out ->
  match out with
  | rowmapping_from_array _ => True
  | rowmapping_from_slice _ count _ => 2 <= count
  | rowmapping_from_slicelist bs cs ss =>
    (2 <= length bs)%nat /\ length cs = length ss /\
    (1 <= length cs <= length bs)%nat /\ counted cs
  | _ => False
  end.
Proof.
  intros Hsel Hout.
  destruct (collection_result _ _ _ _ _ _ Hsel Hout)
    as (a & _ & [Hcs Hcb] & Hcounted & Hcompact).
  unfold compact in Hcompact.
  destruct (counts a) as [|c cs] eqn:Ec; [by injection Hcompact as <-|].
  destruct (Nat.eqb_spec (length (bases a)) 1) as [H1|H1].
  - destruct (bases a) as [|b [|b' bs]]; try discriminate.
    destruct (strides a) as [|s ss]; [discriminate|].
    simpl in Hcb. assert (cs = []) as -> by (destruct cs; [done | simpl in Hcb; lia]).
    injection Hcompact as <-. by apply Hcounted.
  - injection Hcompact as <-. repeat split; try done.
    + simpl in Hcb. lia.
    + simpl. lia.
    + by apply Hcounted.
    + by apply Hcounted.
Qed.

Lemma triples_lookup a i c :
  lagging a -> counts a !! i = Some c ->
  exists b s, triples a !! i = Some (b, c, s).
Proof.
  intros [Hcs Hcb] Hc.
  assert (Hi : (i < length (counts a))%nat) by by eapply lookup_lt_Some.
  destruct (lookup_lt_is_Some_2 (bases a) i) as [b Hb]; [lia|].
  destruct (lookup_lt_is_Some_2 (strides a) i) as [s Hs]; [lia|].
  exists b, s. unfold triples, padded.
  rewrite !lookup_zip_with, Hb. simpl.
  rewrite !lookup_app_l by lia. by rewrite Hc, Hs.
Qed.

Lemma triples_scalars (l : list Z) n k :
  Forall (fun t : canonical => t.1.2 = 1) (zip (zip l (replicate n 1)) k).
Proof.
  revert n k. induction l as [|x l IH]; intros [|n] [|z k]; simpl;
    try constructor; try done.
Qed.

(** X10.  The result for a collection is an index array exactly when no
    element selects more than one row: every scalar, and every slice or
    range of a single row, counts, and empty slices and ranges do not
    matter. *)
Theorem array_iff_single_rows st arg nested fg elems out :
  as_collection st arg = Some (fg, elems) ->
  snd (_rows_selector st arg nested) = Ok out ->
  (exists l, out = rowmapping_from_array l) <->
  Forall (fun t : canonical => t.1.2 = 1)
         (concat (map (element_triples (_nrows (self st))) elems)).
Proof.
  intros Hsel Hout.
  destruct (collection_result _ _ _ _ _ _ Hsel Hout)
    as (a & Hloop & Hlag & Hcounted & Hcompact).
  rewrite <- (app_nil_l (concat _)).
  change [] with (triples (mkAcc [] [] [])) at 1.
  rewrite <- (loop_element_triples _ _ _ _ _ _ lagging_empty Hloop).
  assert (Harr : (exists l, out = rowmapping_from_array l) <-> counts a = []).
  { unfold compact in Hcompact.
    destruct (counts a) as [|c cs];
      [injection Hcompact as <-; split; [done | eauto]|].
    split; [|discriminate]. intros [l ->].
    destruct (_ =? _)%nat; [|discriminate].
    destruct (subscript (bases a) 0); [|discriminate].
    destruct (subscript _ 0); [|discriminate].
    destruct (subscript (strides a) 0); discriminate. }
  rewrite Harr. split.
  - intros Hc. unfold triples, padded. destruct Hlag as [Hcs _].
    rewrite Hc in *. destruct (strides a); [|discriminate]. simpl.
    rewrite Nat.sub_0_r. apply triples_scalars.
  - intros Hall. destruct (counts a) as [|c0 cs] eqn:Ec; [done|].
    destruct (last (c0 :: cs)) as [c|] eqn:Hlast.
    2:{ by apply last_None in Hlast. }
    destruct Hcounted as [_ Hc]. specialize (Hc c Hlast).
    rewrite last_lookup in Hlast.
    destruct (triples_lookup a (pred (length (c0 :: cs))) c Hlag)
      as (b & s & Ht); [by rewrite Ec|].
    apply (Forall_lookup_1 _ _ _ _ Hall) in Ht. simpl in Ht. lia.
Qed.

End Elements.

(** ** Calls, subscriptions and construction *)

Section Objects.

Context (normalize_slice : option Z -> option Z -> option Z -> Z -> canonical).
Context (normalize_range : Z -> Z -> Z -> Z -> option canonical).
Context (dt_call : c_DataTable -> RowMapping -> c_DataTable).
Context (dt_ncols dt_nrows : c_DataTable -> Z).
Context (datatable_from_list : list pyval -> c_DataTable).
Context (new_c_DataTable : c_DataTable).
Context (dt_types : c_DataTable -> list string).

Local Abbreviation _rows_selector := (_rows_selector normalize_slice normalize_range).
Local Abbreviation __call__ :=
  (__call__ normalize_slice normalize_range dt_call dt_ncols dt_nrows).
Local Abbreviation __getitem__ :=
  (__getitem__ normalize_slice normalize_range dt_call dt_ncols dt_nrows).
Local Abbreviation _fill_from_list :=
  (_fill_from_list dt_ncols dt_nrows datatable_from_list dt_types).
Local Abbreviation _fill_from_source :=
  (_fill_from_source dt_ncols dt_nrows datatable_from_list new_c_DataTable
                     dt_types).
Local Abbreviation __init__ :=
  (__init__ dt_ncols dt_nrows datatable_from_list new_c_DataTable dt_types).

(** The normalizer writes to neither the table nor the id counter. *)
Lemma rows_selector_frame st arg nested :
  self (fst (_rows_selector st arg nested)) = self st /\
  DataTable_id_counter (fst (_rows_selector st arg nested)) =
  DataTable_id_counter st.
Proof.
  destruct nested; [rewrite nested_state; by destruct arg|].
  destruct arg; try (split; reflexivity).
  rewrite outer_function, nested_state. by destruct (f _).
Qed.

(** X11.  A call never changes the table it is made on.  When the rows are
    accepted, one id is taken from the counter and given to the new table,
    which keeps the names, the name index and the types of the source and
    takes its engine table, its row count and its column count from the
    engine's answer to the normalized rows; when they are rejected, the
    exception is the normalizer's and no id is taken. *)
Theorem call_bookkeeping st rows :
  self (fst (__call__ st rows)) = self st /\
  match snd (__call__ st rows) with
  | Ok t =>
    DataTable_id_counter (fst (__call__ st rows)) =
    DataTable_id_counter st + 1 /\
    _id t = DataTable_id_counter st + 1 /\
    _names t = _names (self st) /\
    _inames t = _inames (self st) /\
    _types t = _types (self st) /\
    exists rm,
      snd (_rows_selector st (default PyNone rows) false) = Ok rm /\
      _dt t = dt_call (_dt (self st)) rm /\
      _ncols t = dt_ncols (_dt t) /\
      _nrows t = dt_nrows (_dt t)
  | Raise e =>
    DataTable_id_counter (fst (__call__ st rows)) = DataTable_id_counter st /\
    snd (_rows_selector st (default PyNone rows) false) = Raise e
  end.
Proof.
  unfold __call__.
  destruct (rows_selector_frame st (default PyNone rows) false) as [Hs Hc].
  destruct (_rows_selector st (default PyNone rows) false) as [st1 [rm|e]];
    simpl in *.
  - rewrite Hs, Hc. repeat split; try done. by exists rm.
  - by repeat split.
Qed.

(** X12.  Subscription by anything that is not a tuple, or by a tuple of one
    item, selects all rows whatever the item is: it raises nothing, takes
    one id, and the new table is the engine's answer to the identity slice
    [(0, nrows, 1)]. *)
Theorem getitem_selects_all_rows st item :
  (forall items, item = PyTuple items -> length items = 1%nat) ->
  exists t,
    snd (__getitem__ st item) = inr t /\
    _dt t = dt_call (_dt (self st))
                    (rowmapping_from_slice 0 (_nrows (self st)) 1) /\
    _id t = DataTable_id_counter st + 1 /\
    fst (__getitem__ st item) =
    mkState (self st) (DataTable_id_counter st + 1) (generators st)
            (calls st).
Proof.
  intros Hitem.
  assert (Hcall : forall r, r = __getitem__ st (PyTuple [PyNone]) ->
    exists t, snd r = inr t /\
      _dt t = dt_call (_dt (self st))
                      (rowmapping_from_slice 0 (_nrows (self st)) 1) /\
      _id t = DataTable_id_counter st + 1 /\
      fst r = mkState (self st) (DataTable_id_counter st + 1) (generators st)
                      (calls st)).
  { intros r ->. eexists. repeat split. }
  destruct item; try (apply Hcall; reflexivity).
  specialize (Hitem items eq_refl).
  destruct items as [|x [|y items]]; try discriminate.
  apply Hcall. reflexivity.
Qed.

(** X13.  Subscription by the empty tuple or by a tuple of more than three
    items never raises the [ValueError] of line 396: the tuple is taken by
    [%] as its argument list, which has too few or too many items for the one
    conversion, so [%] raises its own [TypeError]; no id is taken. *)
Theorem getitem_bad_arity st items :
  length items = 0%nat \/ (3 < length items)%nat ->
  __getitem__ st (PyTuple items) =
  (st, inl (FormatError
     (if (length items =? 0)%nat
      then "not enough arguments for format string"
      else "not all arguments converted during string formatting"))).
Proof.
  intros H.
  destruct items as [|a [|b [|c [|d items]]]]; simpl in H; try lia;
    reflexivity.
Qed.

(** [d[k] = v] then [d.get(k')]. *)
Lemma dict_get_set d k v k' :
  dict_get (dict_set d k v) k' =
  if String.eqb k k' then Some v else dict_get d k'.
Proof.
  induction d as [|[k0 v0] d IH]; simpl; [done|].
  destruct (String.eqb_spec k0 k) as [->|Hk]; simpl.
  - by destruct (String.eqb_spec k k').
  - destruct (String.eqb_spec k0 k') as [->|Hk'].
    + by destruct (String.eqb_spec k k').
    + exact IH.
Qed.

Lemma inames_from_other names : forall i d k,
  k ∉ names -> dict_get (inames_from i names d) k = dict_get d k.
Proof.
  induction names as [|n rest IH]; intros i d k Hk; simpl; [done|].
  apply not_elem_of_cons in Hk as [Hn Hrest].
  rewrite IH by done. rewrite dict_get_set.
  by destruct (String.eqb_spec n k).
Qed.

Lemma inames_from_lookup names : forall i d j k,
  NoDup names -> names !! j = Some k ->
  dict_get (inames_from i names d) k = Some (Z.of_nat (i + j)).
Proof.
  induction names as [|n rest IH]; intros i d j k Hnd Hj; [done|].
  apply NoDup_cons in Hnd as [Hn Hnd].
  destruct j as [|j]; simpl in *.
  - injection Hj as ->. rewrite inames_from_other by done.
    rewrite dict_get_set, String.eqb_refl. by rewrite Nat.add_0_r.
  - rewrite (IH _ _ j k) by done. do 2 f_equal. lia.
Qed.

(** The index built at line 120 inverts a tuple of distinct names. *)
Lemma inames_inverse names (i : nat) n :
  NoDup names ->
  names !! i = Some n <->
  dict_get (inames_from 0 names []) n = Some (Z.of_nat i).
Proof.
  intros Hnd. split; [by apply inames_from_lookup|].
  intros Hget. destruct (decide (n ∈ names)) as [Hin|Hout].
  - apply list_elem_of_lookup in Hin as [j Hj].
    rewrite (inames_from_lookup _ 0 [] j n Hnd Hj) in Hget.
    injection Hget as Heq. by replace i with j by lia.
  - by rewrite inames_from_other in Hget.
Qed.

Lemma default_names_length ncols :
  length (default_names ncols) = Z.to_nat ncols.
Proof. unfold default_names. by rewrite length_map, length_seq. Qed.

Lemma default_names_lookup ncols i :
  0 <= i < ncols ->
  default_names ncols !! Z.to_nat i = Some ("C" +:+ pretty (i + 1)).
Proof.
  intros Hi. unfold default_names.
  rewrite list_lookup_fmap, lookup_seq_lt by lia. simpl.
  by rewrite Z2Nat.id by lia.
Qed.

Lemma default_names_NoDup ncols : NoDup (default_names ncols).
Proof.
  unfold default_names. apply (NoDup_fmap_2_strong _).
  - intros i j _ _ [= H]. apply pretty_Z_inj in H. lia.
  - apply NoDup_seq.
Qed.

(** What [_fill_from_list] returns is named, whenever the names it is given
    are distinct. *)
Lemma fill_from_list_named id src names t :
  (forall ns, names = Some ns -> NoDup ns) ->
  _fill_from_list id src names = Ok t -> named t /\ _id t = id.
Proof.
  intros Hnd. unfold _fill_from_list.
  set (ncols := dt_ncols (datatable_from_list src)).
  set (ns := match names with Some (n :: rest) => n :: rest
             | _ => default_names ncols end).
  assert (Hns : NoDup ns).
  { subst ns. destruct names as [[|n rest]|]; try apply default_names_NoDup.
    by apply Hnd. }
  destruct (Z.eqb_spec (Z.of_nat (length ns)) ncols) as [Hlen|]; simpl;
    [|discriminate].
  intros [= <-]. split; [|done]. split; [done|]. split; [done|].
  intros i n. simpl. by apply inames_inverse.
Qed.

(** The name index of a constructed table is the one line 120 builds from
    its names. *)
Lemma fill_from_list_inames id src names t :
  _fill_from_list id src names = Ok t ->
  _inames t = inames_from 0 (_names t) [].
Proof.
  unfold _fill_from_list. destruct (negb _); [discriminate|].
  by intros [= <-].
Qed.

Lemma init_inames st src t :
  snd (__init__ st src) = Ok t -> _inames t = inames_from 0 (_names t) [].
Proof.
  simpl. destruct src as [v|items]; simpl;
    [|apply fill_from_list_inames].
  destruct v; try (by intros [= <-]); try apply fill_from_list_inames.
  destruct items as [|x rest]; [discriminate|].
  destruct x; apply fill_from_list_inames.
Qed.

(** X14.  Every table built from a list, a tuple, a set or a dictionary has
    distinct column names, as many as the engine reports columns, and a name
    index that is their exact inverse, provided the keys of a dictionary
    source are distinct (as the keys of a dictionary are). *)
Theorem constructed_names st src t :
  (forall items, src = SrcDict items -> NoDup (map fst items)) ->
  (forall v, src = SrcObject v -> is_sequence v = true) ->
  snd (__init__ st src) = Ok t ->
  named t /\ _id t = DataTable_id_counter st + 1.
Proof.
  intros Hkeys Hseq. simpl.
  assert (Hnone : forall id cols t',
            _fill_from_list id cols None = Ok t' -> named t' /\ _id t' = id).
  { intros id cols t'. by apply fill_from_list_named. }
  destruct src as [v|items]; simpl.
  - specialize (Hseq v eq_refl).
    destruct v; try discriminate Hseq; try apply Hnone.
    destruct items as [|x rest]; [discriminate|].
    destruct x; apply Hnone.
  - apply fill_from_list_named. intros ns [= <-]. by apply Hkeys.
Qed.

(** X15.  A table built from a list, a tuple or a set names its columns
    C1, C2, ..., one name per column the engine reports, and its name index
    sends C1 to 0, C2 to 1, and so on. *)
Theorem default_column_names st v t :
  is_sequence v = true ->
  snd (__init__ st (SrcObject v)) = Ok t ->
  _names t = default_names (_ncols t) /\
  forall i, 0 <= i < _ncols t ->
    _names t !! Z.to_nat i = Some ("C" +:+ pretty (i + 1)) /\
    dict_get (_inames t) ("C" +:+ pretty (i + 1)) = Some i.
Proof.
  intros Hseq Hinit.
  assert (Hnames : _names t = default_names (_ncols t)).
  { revert Hinit. simpl.
    assert (Hnone : forall id cols,
      _fill_from_list id cols None = Ok t ->
      _names t = default_names (_ncols t)).
    { intros id cols. unfold _fill_from_list.
      destruct (negb _); [discriminate|]. by intros [= <-]. }
    destruct v; try discriminate Hseq; try apply Hnone.
    destruct items as [|x rest]; [discriminate|]. destruct x; apply Hnone. }
  split; [exact Hnames|]. intros i Hi.
  assert (Hi' : _names t !! Z.to_nat i = Some ("C" +:+ pretty (i + 1))).
  { rewrite Hnames. by apply default_names_lookup. }
  split; [exact Hi'|].
  rewrite (init_inames _ _ _ Hinit), Hnames.
  rewrite <- (Z2Nat.id i) at 2 by lia.
  apply inames_inverse; [apply default_names_NoDup|].
  by apply default_names_lookup.
Qed.

(** X16.  A table built from a dictionary that is not empty takes the keys
    as its column names, in their order, and the values as its columns, when
    the engine reports as many columns as there are keys; when it reports any
    other number, construction fails on the assertion of line 118.  An empty
    dictionary is built as an empty tuple is. *)
Theorem dict_source_names st items :
  items <> [] ->
  (Z.of_nat (length items) =
   dt_ncols (datatable_from_list (map snd items)) ->
   exists t,
     snd (__init__ st (SrcDict items)) = Ok t /\
     _names t = map fst items /\
     _dt t = datatable_from_list (map snd items)) /\
  (Z.of_nat (length items) <>
   dt_ncols (datatable_from_list (map snd items)) ->
   snd (__init__ st (SrcDict items)) = Raise AssertionError) /\
  __init__ st (SrcDict []) = __init__ st (SrcObject (PyTuple [])).
Proof.
  intros Hne.
  assert (Hfill : snd (__init__ st (SrcDict items)) =
    if negb (Z.of_nat (length items) =?
             dt_ncols (datatable_from_list (map snd items)))
    then Raise AssertionError
    else Ok (mkDataTable (DataTable_id_counter st + 1)
               (dt_ncols (datatable_from_list (map snd items)))
               (dt_nrows (datatable_from_list (map snd items)))
               (dt_types (datatable_from_list (map snd items)))
               (map fst items) (inames_from 0 (map fst items) [])
               (datatable_from_list (map snd items)))).
  { unfold __init__, _fill_from_source, _fill_from_list.
    rewrite <- (length_map fst items).
    destruct items as [|[k v] items]; [done|]. reflexivity. }
  rewrite Hfill. repeat split.
  - intros Hlen. apply Z.eqb_eq in Hlen. rewrite Hlen. simpl.
    eexists. by repeat split.
  - intros Hlen. apply Z.eqb_neq in Hlen. by rewrite Hlen.
Qed.

Lemma fill_from_list_raises id src names e :
  _fill_from_list id src names = Raise e -> e = AssertionError.
Proof.
  unfold _fill_from_list. destruct (negb _); [by intros [= <-] | discriminate].
Qed.

(** X17.  Construction takes an id from the counter before it looks at the
    source, so a construction that fails takes one too, and touches nothing
    else.  It fails with [IndexError] exactly on the empty list, and
    otherwise only on the assertion of line 118.  A source that is neither a
    list, a tuple, a set nor a dictionary ([None], a number, a generator,
    which is not consumed, ...) gives the blank table without columns or
    rows. *)
Theorem constructor_edge_cases st src :
  fst (__init__ st src) =
  mkState (self st) (DataTable_id_counter st + 1) (generators st) (calls st) /\
  (snd (__init__ st src) = Raise IndexError <-> src = SrcObject (PyList [])) /\
  (forall e, snd (__init__ st src) = Raise e ->
             e = IndexError \/ e = AssertionError) /\
  (forall v, src = SrcObject v -> is_sequence v = false ->
   snd (__init__ st src) =
   Ok (mkDataTable (DataTable_id_counter st + 1) 0 0 [] [] []
                   new_c_DataTable)).
Proof.
  split; [reflexivity|].
  assert (Hfill : forall id cols names e,
            _fill_from_list id cols names = Raise e -> e = AssertionError).
  { intros id cols names e. apply fill_from_list_raises. }
  split; [|split].
  - split; [|by intros ->]. simpl.
    destruct src as [v|items]; simpl.
    + destruct v; try discriminate;
        try (intros H; by apply Hfill in H).
      destruct items as [|x rest]; [done|].
      destruct x; intros H; by apply Hfill in H.
    + intros H. by apply Hfill in H.
  - intros e. simpl. destruct src as [v|items]; simpl.
    + destruct v; try discriminate;
        try (intros H; right; by apply Hfill in H).
      destruct items as [|x rest]; [intros [= <-]; by left|].
      destruct x; intros H; right; by apply Hfill in H.
    + intros H; right; by apply Hfill in H.
  - intros v -> Hv. by destruct v.
Qed.

(** X18.  A list whose first item is not a list is one column: it is built
    as the list holding it alone.  A tuple or a set is never wrapped: it is
    built as the list of its items, each item a column. *)
Theorem flat_list_is_one_column st x rest :
  is_list x = false ->
  __init__ st (SrcObject (PyList (x :: rest))) =
  __init__ st (SrcObject (PyList [PyList (x :: rest)])) /\
  __init__ st (SrcObject (PyTuple (x :: rest))) =
  (mkState (self st) (DataTable_id_counter st + 1) (generators st) (calls st),
   _fill_from_list (DataTable_id_counter st + 1) (x :: rest) None) /\
  __init__ st (SrcObject (PySet (x :: rest))) =
  __init__ st (SrcObject (PyTuple (x :: rest))).
Proof.
  intros Hx. repeat split. by destruct x.
Qed.

End Objects.

(** ** The theorems above at sample inputs *)

(** [[3, slice(0, 5, 1), -1]] on ten rows. *)
Lemma selection_in_order_witness :
  loop canonicalize_slice canonicalize_range 10 false 0
       [PyInt 3; PySlice (PyInt 0) (PyInt 5) (PyInt 1); PyInt (-1)]
       (mkAcc [] [] []) =
  Ok (mkAcc [3; 0; 9] [1; 5] [1; 1]) /\
  triples (mkAcc [3; 0; 9] [1; 5] [1; 1]) =
  [(3, 1, 1); (0, 5, 1); (9, 1, 1)].
Proof.
  split; [reflexivity|].
  apply (selection_in_order canonicalize_slice canonicalize_range 10 false
           [PyInt 3; PySlice (PyInt 0) (PyInt 5) (PyInt 1); PyInt (-1)]
           (mkAcc [3; 0; 9] [1; 5] [1; 1]) eq_refl).
Defined.

(** The tuple [(0, -1, 4)] on ten rows. *)
Lemma integer_collection_witness :
  as_collection state10 (PyTuple (map PyInt [0; -1; 4])) =
  Some (false, map PyInt [0; -1; 4]) /\
  normalize state10 (PyTuple [PyInt 0; PyInt (-1); PyInt 4]) =
  Ok (rowmapping_from_array [0; 9; 4]).
Proof.
  split; [reflexivity|].
  apply (integer_collection canonicalize_slice canonicalize_range state10
           (PyTuple (map PyInt [0; -1; 4])) false false [0; -1; 4] eq_refl).
  repeat constructor; simpl; lia.
Defined.

(** [[0, ..., 1]]: the ellipsis is no element. *)
Lemma unsupported_element_witness :
  is_row_element Ellipsis = false /\
  normalize state10 (PyList ([PyInt 0] ++ Ellipsis :: [PyInt 1])) =
  Raise (TypeError
    [Txt "Invalid row selector "; Str Ellipsis; Txt " at element ";
     Str (PyInt 1); Txt " of the `rows` list"]).
Proof.
  split; [reflexivity|].
  apply (unsupported_element canonicalize_slice canonicalize_range state10
           (PyList ([PyInt 0] ++ Ellipsis :: [PyInt 1])) false false
           [PyInt 0] Ellipsis [PyInt 1] (mkAcc [0] [] []) eq_refl eq_refl
           eq_refl).
Defined.

(** [[slice(0.5, None, 0)]]: the zero step is reported, not the bound. *)
Lemma zero_step_rejected_witness :
  has_zero_step (PySlice (PyOther false "0.5") PyNone (PyInt 0)) = true /\
  normalize state10 (PyList ([] ++ PySlice (PyOther false "0.5") PyNone
                                           (PyInt 0) :: [])) =
  Raise (ValueError
    [Txt "In "; Repr (PySlice (PyOther false "0.5") PyNone (PyInt 0));
     Txt " step must not be 0"]).
Proof.
  split; [reflexivity|].
  apply (zero_step_rejected canonicalize_slice canonicalize_range state10
           (PyList ([] ++ PySlice (PyOther false "0.5") PyNone (PyInt 0)
                          :: []))
           false false [] _ [] (mkAcc [] [] []) eq_refl eq_refl eq_refl).
Defined.

(** The generator of [state_gen], which yields 0 and 1. *)
Lemma generator_as_list_witness :
  remaining 0 state_gen = [PyInt 0; PyInt 1] /\
  normalize state_gen (PyGenerator 0) =
  normalize state_gen (PyList [PyInt 0; PyInt 1]).
Proof.
  split; [reflexivity|].
  apply (generator_as_list canonicalize_slice canonicalize_range
           state_gen 0%nat false).
  intros m Hm. discriminate Hm.
Defined.

(** [lambda f: [2, 3]] *)
Lemma function_as_value_witness :
  recognized (PyList [PyInt 2; PyInt 3]) = true /\
  normalize state10 (PyFunction (fun _ => PyList [PyInt 2; PyInt 3])) =
  normalize state10 (PyList [PyInt 2; PyInt 3]).
Proof.
  split; [reflexivity|].
  apply (function_as_value canonicalize_slice canonicalize_range state10
           (fun _ => PyList [PyInt 2; PyInt 3]) eq_refl).
Defined.

(** [slice(0, 5, 1)] on ten rows is handed over as a slice of five rows. *)
Lemma engine_arguments_witness :
  normalize state10 (PySlice (PyInt 0) (PyInt 5) (PyInt 1)) =
  Ok (rowmapping_from_slice 0 5 1) /\
  2 <= 5.
Proof.
  split; [reflexivity|].
  apply (engine_arguments canonicalize_slice canonicalize_range state10
           (PySlice (PyInt 0) (PyInt 5) (PyInt 1)) false false
           [PySlice (PyInt 0) (PyInt 5) (PyInt 1)]
           (rowmapping_from_slice 0 5 1) eq_refl eq_refl).
Defined.

(** [[3, slice(4, 5, 1), slice(5, 5, 1)]] on ten rows: a scalar, one row,
    no row. *)
Lemma array_iff_single_rows_witness :
  normalize state10
    (PyList [PyInt 3; PySlice (PyInt 4) (PyInt 5) (PyInt 1);
             PySlice (PyInt 5) (PyInt 5) (PyInt 1)]) =
  Ok (rowmapping_from_array [3; 4]) /\
  Forall (fun t : canonical => t.1.2 = 1)
    (concat (map (element_triples canonicalize_slice canonicalize_range 10)
       [PyInt 3; PySlice (PyInt 4) (PyInt 5) (PyInt 1);
        PySlice (PyInt 5) (PyInt 5) (PyInt 1)])).
Proof.
  split; [reflexivity|].
  apply (array_iff_single_rows canonicalize_slice canonicalize_range state10
           (PyList [PyInt 3; PySlice (PyInt 4) (PyInt 5) (PyInt 1);
                    PySlice (PyInt 5) (PyInt 5) (PyInt 1)])
           false false _ (rowmapping_from_array [3; 4]) eq_refl eq_refl).
  by exists [3; 4].
Defined.

(** [dt[3]]: all ten rows. *)
Lemma getitem_selects_all_rows_witness :
  exists t,
    snd (__getitem__ canonicalize_slice canonicalize_range sample_call
           sample_ncols sample_nrows state10 (PyInt 3)) = inr t /\
    _dt t = sample_call (_dt table10) (rowmapping_from_slice 0 10 1) /\
    _id t = 3.
Proof.
  destruct (getitem_selects_all_rows canonicalize_slice canonicalize_range
              sample_call sample_ncols sample_nrows state10 (PyInt 3)
              ltac:(discriminate)) as (t & Ht & Hdt & Hid & _).
  exists t. split; [exact Ht|]. split; [exact Hdt | exact Hid].
Defined.

(** [dt[()]] *)
Lemma getitem_bad_arity_witness :
  __getitem__ canonicalize_slice canonicalize_range sample_call
    sample_ncols sample_nrows state10 (PyTuple []) =
  (state10, inl (FormatError "not enough arguments for format string")).
Proof.
  apply (getitem_bad_arity canonicalize_slice canonicalize_range sample_call
           sample_ncols sample_nrows state10 []).
  left. reflexivity.
Defined.

(** [DataTable({"a": [1], "b": [2]})] *)
Lemma constructed_names_witness :
  NoDup (map fst [("a"%string, PyList [PyInt 1]);
                  ("b"%string, PyList [PyInt 2])]) /\
  exists t,
    snd (__init__ sample_ncols sample_nrows sample_from_list 0%nat
           sample_types state10
           (SrcDict [("a"%string, PyList [PyInt 1]);
                     ("b"%string, PyList [PyInt 2])])) = Ok t /\
    named t /\ _id t = 3.
Proof.
  assert (Hnd : NoDup (map fst [("a"%string, PyList [PyInt 1]);
                                ("b"%string, PyList [PyInt 2])])).
  { simpl. apply NoDup_cons. split; [|apply NoDup_singleton].
    by intros [= ]%list_elem_of_singleton. }
  split; [exact Hnd|].
  eexists. split; [reflexivity|].
  apply (constructed_names sample_ncols sample_nrows sample_from_list 0%nat
           sample_types state10
           (SrcDict [("a"%string, PyList [PyInt 1]);
                     ("b"%string, PyList [PyInt 2])])).
  - intros items [= <-]. exact Hnd.
  - discriminate.
  - reflexivity.
Defined.

(** [DataTable([[1, 2, 3], [4, 5, 6]])]: columns C1 and C2. *)
Lemma default_column_names_witness :
  exists t,
    snd (__init__ sample_ncols sample_nrows sample_from_list 0%nat
           sample_types state10
           (SrcObject (PyList [PyList [PyInt 1; PyInt 2; PyInt 3];
                               PyList [PyInt 4; PyInt 5; PyInt 6]]))) = Ok t /\
    _names t = default_names (_ncols t) /\
    _names t = ["C1"; "C2"]%string.
Proof.
  eexists. split; [reflexivity|]. split; [|reflexivity].
  apply (default_column_names sample_ncols sample_nrows sample_from_list
           0%nat sample_types state10
           (PyList [PyList [PyInt 1; PyInt 2; PyInt 3];
                    PyList [PyInt 4; PyInt 5; PyInt 6]])).
  - reflexivity.
  - reflexivity.
Defined.

(** The dictionary above and an engine that reports two columns for it. *)
Lemma dict_source_names_witness :
  Z.of_nat (length [("a"%string, PyList [PyInt 1]);
                    ("b"%string, PyList [PyInt 2])]) =
  sample_ncols (sample_from_list [PyList [PyInt 1]; PyList [PyInt 2]]) /\
  exists t,
    snd (__init__ sample_ncols sample_nrows sample_from_list 0%nat
           sample_types state10
           (SrcDict [("a"%string, PyList [PyInt 1]);
                     ("b"%string, PyList [PyInt 2])])) = Ok t /\
    _names t = ["a"; "b"]%string.
Proof.
  split; [reflexivity|].
  destruct (dict_source_names sample_ncols sample_nrows sample_from_list
              0%nat sample_types state10
              [("a"%string, PyList [PyInt 1]); ("b"%string, PyList [PyInt 2])]
              ltac:(discriminate)) as (Hok & _ & _).
  destruct (Hok eq_refl) as (t & Ht & Hnames & _).
  exists t. split; [exact Ht | exact Hnames].
Defined.

(** [DataTable([1, 2, 3])] is [DataTable([[1, 2, 3]])]. *)
Lemma flat_list_is_one_column_witness :
  is_list (PyInt 1) = false /\
  __init__ sample_ncols sample_nrows sample_from_list 0%nat sample_types
    state10 (SrcObject (PyList [PyInt 1; PyInt 2; PyInt 3])) =
  __init__ sample_ncols sample_nrows sample_from_list 0%nat sample_types
    state10 (SrcObject (PyList [PyList [PyInt 1; PyInt 2; PyInt 3]])).
Proof.
  split; [reflexivity|].
  apply (flat_list_is_one_column sample_ncols sample_nrows sample_from_list
           0%nat sample_types state10 (PyInt 1) [PyInt 2; PyInt 3] eq_refl).
Defined.
